(** * blob_reader: the content-type heuristic and the encoding-fallback decoder

    A shallow embedding of [guess_content_type] and [safe_decode] from
    [python/blob_reader.py], and the properties of the two functions.

    - Python [bytes] are lists of [Byte.byte]; Python [int] is [Z];
      Python [str] holding decoded text is a list of code points;
      encoding names and the two verdicts ['text'] / ['binary'] are
      Rocq strings.
    - [len(sample) * 0.3] is a binary64 product: it is computed with the
      IEEE 754 specification of the standard library ([SpecFloat]), and
      the mixed [int > float] test is the exact comparison Python makes.
    - [bytes.decode] belongs to the interpreter, not to the module: the
      codec registry is a parameter of [safe_decode]. Every call of it is
      recorded in a log, so that "an encoding was attempted" is a fact
      about a run and exceptions keep the log of what ran before them. *)

From Stdlib Require Import ZArith List String Ascii Bool Lia.
From Stdlib Require Import Floats.SpecFloat.
From Stdlib Require Import Init.Byte.
From Stdlib Require Strings.Byte.
From Stdlib Require DecimalString.
Import ListNotations.

Local Open Scope string_scope.
Local Open Scope list_scope.
Local Open Scope Z_scope.

(** ** Python values *)

Module Py.

(** The integer a byte stands for when [bytes] is iterated. *)
Definition ord (b : byte) : Z := Z.of_N (Strings.Byte.to_N b).

Definition len {A} (l : list A) : Z := Z.of_nat (List.length l).

(** [data[:stop]]: a negative [stop] counts from the end, and the bound is
    clamped to the length. *)
Definition slice_to {A} (data : list A) (stop : Z) : list A :=
  if stop <? 0 then firstn (Z.to_nat (len data + stop)) data
  else firstn (Z.to_nat stop) data.

Definition byte_eqb (a b : byte) : bool := Strings.Byte.eqb a b.

(** [sample.startswith(sig)] *)
Fixpoint startswith (sample sig : list byte) {struct sig} : bool :=
  match sig with
  | [] => true
  | s :: sig' =>
      match sample with
      | [] => false
      | b :: sample' => byte_eqb b s && startswith sample' sig'
      end
  end.

(** [sum(...)] of integers, accumulated from 0 in iteration order. *)
Definition sum (l : list Z) : Z := fold_left Z.add l 0.

Definition hex_digit (n : Z) : ascii :=
  match n with
  | 0 => "0" | 1 => "1" | 2 => "2" | 3 => "3" | 4 => "4" | 5 => "5"
  | 6 => "6" | 7 => "7" | 8 => "8" | 9 => "9" | 10 => "a" | 11 => "b"
  | 12 => "c" | 13 => "d" | 14 => "e" | _ => "f"
  end%char.

(** [bytes.hex()]: two lower-case digits per byte. *)
Fixpoint hex (bs : list byte) : string :=
  match bs with
  | [] => EmptyString
  | b :: bs' =>
      String (hex_digit (ord b / 16)) (String (hex_digit (ord b mod 16)) (hex bs'))
  end.

(** Decoded text: the code points of a [str]. *)
Definition str := list Z.

End Py.

(** ** Binary64 arithmetic of the threshold test *)

Module F64.

Definition prec : Z := 53.
Definition emax : Z := 1024.

(** The literal [0.3]: the double nearest to 3/10,
    5404319552844595 * 2^-54. *)
Definition lit_0_3 : spec_float := S754_finite false 5404319552844595 (-54).

(** [float(n)] as the mixed product converts its integer operand: the
    nearest double, ties to even. Python raises [OverflowError] where the
    nearest double would be infinite; a length is below 2^63 and never
    gets there. *)
Definition of_int (n : Z) : spec_float := binary_normalize prec emax n 0 false.

Definition mul (x y : spec_float) : spec_float := SFmul prec emax x y.

(** [c > f] for an [int] and a [float]: Python compares the two exactly,
    without converting the integer. *)
Definition int_gt (c : Z) (f : spec_float) : bool :=
  match f with
  | S754_nan => false
  | S754_infinity s => s
  | S754_zero _ => 0 <? c
  | S754_finite s m e =>
      let v := cond_Zopp s (Zpos m) in
      if 0 <=? e then v * 2 ^ e <? c else v <? c * 2 ^ (- e)
  end.

End F64.

(** ** guess_content_type *)

(** Signatures of common binary files: PDF, ZIP, PNG, JPEG, gzip. *)
Definition binary_sigs : list (list byte) :=
  [ [x25; x50; x44; x46; x2d];
    [x50; x4b; x03; x04];
    [x89; x50; x4e; x47];
    [xff; xd8; xff];
    [x1f; x8b] ].

(** [b < 32 and b not in {9, 10, 13}] *)
Definition is_control (b : byte) : bool :=
  (Py.ord b <? 32) && negb (existsb (Z.eqb (Py.ord b)) [9; 10; 13]).

Definition control_chars (sample : list byte) : Z :=
  Py.sum (map (fun _ => 1) (filter is_control sample)).

Definition default_sample_size : Z := 1024.

Definition guess_content_type (data : list byte) (sample_size : Z) : string :=
  let sample := Py.slice_to data sample_size in
  if existsb (Py.startswith sample) binary_sigs then "binary"
  else if F64.int_gt (control_chars sample)
                     (F64.mul (F64.of_int (Py.len sample)) F64.lit_0_3)
  then "binary"
  else "text".

(** ** Exceptions and the log of codec calls *)

(** The exceptions that can leave [safe_decode]. The first two are the
    ones the module raises itself, each kept as the values its f-string
    interpolates: [ValueError] is the one of line 129 and carries
    [data[:20].hex()]; [UnicodeError] is the one of line 148 and carries
    [[primary_encoding] + fallback_encodings] and [data[:100].hex()]. The
    others are raised by [bytes.decode]: [UnicodeDecodeError] (a subclass
    of [UnicodeError]), [LookupError], and [Raised] for anything else,
    with its description. In Python [UnicodeError] is itself a subclass of
    [ValueError], and a [Raised] exception can be a [ValueError] too (the
    one for an encoding name with a NUL character is). *)
Inductive exn : Type :=
| ValueError (first_bytes : string)
| UnicodeError (tried : list string) (first_bytes : string)
| UnicodeDecodeError (encoding : string)
| LookupError (encoding : string)
| Raised (what : string).

(** What one call [data.decode(encoding)] does: it returns the text, or
    raises a [UnicodeError] (the data is not valid in the encoding), a
    [LookupError] (no such encoding), or any other exception. *)
Inductive codec_result : Type :=
| Decoded (text : Py.str)
| Undecodable
| UnknownEncoding
| OtherError (what : string).

(** A run: the encodings passed to [bytes.decode], in call order, and how
    the run ended. *)
Record run (A : Type) : Type := Run { attempts : list string; result : exn + A }.
Arguments Run {A} _ _.
Arguments attempts {A} _.
Arguments result {A} _.

Definition ret {A} (a : A) : run A := Run [] (inr a).

Definition raise {A} (e : exn) : run A := Run [] (inl e).

Definition bind {A B} (m : run A) (k : A -> run B) : run B :=
  match result m with
  | inl e => Run (attempts m) (inl e)
  | inr a => Run (attempts m ++ attempts (k a)) (result (k a))
  end.

Notation "x <- m ;; k" := (bind m (fun x => k))
  (at level 61, m at next level, right associativity).

(** [isinstance(e, UnicodeError)] *)
Definition is_UnicodeError (e : exn) : bool :=
  match e with
  | UnicodeError _ _ | UnicodeDecodeError _ => true
  | ValueError _ | LookupError _ | Raised _ => false
  end.

(** [try: body / except UnicodeError: handler] *)
Definition try_except_UnicodeError {A} (body handler : run A) : run A :=
  match result body with
  | inl e =>
      if is_UnicodeError e
      then Run (attempts body ++ attempts handler) (result handler)
      else body
  | inr _ => body
  end.

(** ** safe_decode *)

Definition default_fallbacks : list string := ["latin1"; "cp1252"; "ascii"].

(** [not fallback_encodings]: true of [None] and of the empty list. *)
Definition py_not (fallback_encodings : option (list string)) : bool :=
  match fallback_encodings with
  | None | Some [] => true
  | Some (_ :: _) => false
  end.

(** Lines 123-124: the list the loop iterates over. *)
Definition effective_fallbacks (fallback_encodings : option (list string)) : list string :=
  if py_not fallback_encodings then default_fallbacks
  else match fallback_encodings with Some l => l | None => [] end.

Section SafeDecode.

(** The interpreter's codec registry. *)
Variable codec : string -> list byte -> codec_result.

(** [data.decode(encoding)] *)
Definition decode (data : list byte) (encoding : string) : run Py.str :=
  Run [encoding]
      match codec encoding data with
      | Decoded text => inr text
      | Undecodable => inl (UnicodeDecodeError encoding)
      | UnknownEncoding => inl (LookupError encoding)
      | OtherError what => inl (Raised what)
      end.

(** The body of one [try]: [return data.decode(enc), enc]; a caught
    [UnicodeError] falls through, which is [None] here. *)
Definition attempt (data : list byte) (enc : string) : run (option (Py.str * string)) :=
  try_except_UnicodeError
    (text <- decode data enc ;; ret (Some (text, enc)))
    (ret None).

(** The [for enc in fallback_encodings] loop; [None] when it runs to its
    end without returning. *)
Fixpoint try_fallbacks (data : list byte) (fallback_encodings : list string)
  : run (option (Py.str * string)) :=
  match fallback_encodings with
  | [] => ret None
  | enc :: rest =>
      r <- attempt data enc ;;
      match r with
      | Some found => ret (Some found)
      | None => try_fallbacks data rest
      end
  end.

Definition safe_decode (data : list byte) (primary_encoding : string)
    (fallback_encodings : option (list string)) : run (Py.str * string) :=
  let fallback_encodings := effective_fallbacks fallback_encodings in
  let content_type := guess_content_type data default_sample_size in
  if String.eqb content_type "binary"
  then raise (ValueError (Py.hex (Py.slice_to data 20)))
  else
    r <- attempt data primary_encoding ;;
    match r with
    | Some found => ret found
    | None =>
        r <- try_fallbacks data fallback_encodings ;;
        match r with
        | Some found => ret found
        | None =>
            raise (UnicodeError (primary_encoding :: fallback_encodings)
                                (Py.hex (Py.slice_to data 100)))
        end
    end.

End SafeDecode.

(** ** The shape of a run

    Not part of the module: the relation and the function the proofs use
    to say how a run over a list of encodings ends. *)

Section RunShape.

Variable codec : string -> list byte -> codec_result.

(** [scan data encs log r]: calling the codec on [encs] in order stops at
    the first encoding that is not undecodable, or after the whole list;
    [log] is what was called and [r] the ending. *)
Inductive scan (data : list byte) : list string -> list string -> exn + option (Py.str * string) -> Prop :=
| scan_all encs :
    Forall (fun e => codec e data = Undecodable) encs ->
    scan data encs encs (inr None)
| scan_hit pre enc post text :
    Forall (fun e => codec e data = Undecodable) pre ->
    codec enc data = Decoded text ->
    scan data (pre ++ enc :: post) (pre ++ [enc]) (inr (Some (text, enc)))
| scan_unknown pre enc post :
    Forall (fun e => codec e data = Undecodable) pre ->
    codec enc data = UnknownEncoding ->
    scan data (pre ++ enc :: post) (pre ++ [enc]) (inl (LookupError enc))
| scan_raised pre enc post what :
    Forall (fun e => codec e data = Undecodable) pre ->
    codec enc data = OtherError what ->
    scan data (pre ++ enc :: post) (pre ++ [enc]) (inl (Raised what)).

End RunShape.

(** On text, [safe_decode] is a scan of the primary followed by the
    fallbacks, and maps its endings to a pair, [UnicodeError] or the
    exception of the codec. *)
Definition finish (primary : string) (fbs : option (list string)) (data : list byte)
    (r : exn + option (Py.str * string)) : exn + Py.str * string :=
  match r with
  | inl e => inl e
  | inr (Some found) => inr found
  | inr None =>
      inl (UnicodeError (primary :: effective_fallbacks fbs) (Py.hex (Py.slice_to data 100)))
  end.

(** ** A reference codec registry

    CPython's strict decoders for the four encodings [safe_decode] names
    ([utf-8] as the default primary, and the default fallbacks). Any other
    name is unregistered in this instance. Empty [bytes] decode to the
    empty string before the encoding is looked up, as in CPython 3.9 and
    later. A name with a NUL character is refused before that, with a
    [ValueError], when the argument is read. *)

Module Codecs.

Definition option_cons (c : Z) (rest : option Py.str) : option Py.str :=
  match rest with Some t => Some (c :: t) | None => None end.

Definition latin1 (data : list byte) : option Py.str := Some (map Py.ord data).

Fixpoint ascii (data : list byte) : option Py.str :=
  match data with
  | [] => Some []
  | b :: rest => if Py.ord b <? 128 then option_cons (Py.ord b) (ascii rest) else None
  end.

(** Windows-1252: 0x80..0x9f map into the general punctuation and Latin
    extended blocks; five of them are unassigned. *)
Definition cp1252_char (n : Z) : option Z :=
  if (n <? 128) || (160 <=? n) then Some n
  else match n with
       | 128 => Some 8364 | 130 => Some 8218 | 131 => Some 402 | 132 => Some 8222
       | 133 => Some 8230 | 134 => Some 8224 | 135 => Some 8225 | 136 => Some 710
       | 137 => Some 8240 | 138 => Some 352 | 139 => Some 8249 | 140 => Some 338
       | 142 => Some 381 | 145 => Some 8216 | 146 => Some 8217 | 147 => Some 8220
       | 148 => Some 8221 | 149 => Some 8226 | 150 => Some 8211 | 151 => Some 8212
       | 152 => Some 732 | 153 => Some 8482 | 154 => Some 353 | 155 => Some 8250
       | 156 => Some 339 | 158 => Some 382 | 159 => Some 376
       | _ => None
       end.

Fixpoint cp1252 (data : list byte) : option Py.str :=
  match data with
  | [] => Some []
  | b :: rest =>
      match cp1252_char (Py.ord b) with
      | Some c => option_cons c (cp1252 rest)
      | None => None
      end
  end.

Definition between (lo n hi : Z) : bool := (lo <=? n) && (n <=? hi).

(** Payload of a continuation byte whose value lies in [lo..hi]. *)
Definition cont (lo hi : Z) (b : byte) : option Z :=
  if between lo (Py.ord b) hi then Some (Py.ord b mod 64) else None.

(** Strict UTF-8: shortest form only, no surrogates, nothing above
    U+10FFFF. *)
Fixpoint utf8 (data : list byte) : option Py.str :=
  match data with
  | [] => Some []
  | b0 :: r0 =>
      let n0 := Py.ord b0 in
      if n0 <? 128 then option_cons n0 (utf8 r0)
      else if between 194 n0 223 then
        match r0 with
        | b1 :: r1 =>
            match cont 128 191 b1 with
            | Some c1 => option_cons ((n0 mod 32) * 64 + c1) (utf8 r1)
            | None => None
            end
        | _ => None
        end
      else if between 224 n0 239 then
        match r0 with
        | b1 :: b2 :: r2 =>
            let lo := if n0 =? 224 then 160 else 128 in
            let hi := if n0 =? 237 then 159 else 191 in
            match cont lo hi b1, cont 128 191 b2 with
            | Some c1, Some c2 =>
                option_cons ((n0 mod 16) * 4096 + c1 * 64 + c2) (utf8 r2)
            | _, _ => None
            end
        | _ => None
        end
      else if between 240 n0 244 then
        match r0 with
        | b1 :: b2 :: b3 :: r3 =>
            let lo := if n0 =? 240 then 144 else 128 in
            let hi := if n0 =? 244 then 143 else 191 in
            match cont lo hi b1, cont 128 191 b2, cont 128 191 b3 with
            | Some c1, Some c2, Some c3 =>
                option_cons ((n0 mod 8) * 262144 + c1 * 4096 + c2 * 64 + c3) (utf8 r3)
            | _, _, _ => None
            end
        | _ => None
        end
      else None
  end.

Definition of_option (r : option Py.str) : codec_result :=
  match r with Some text => Decoded text | None => Undecodable end.

Fixpoint has_nul (name : string) : bool :=
  match name with
  | EmptyString => false
  | String c rest => Ascii.eqb c Ascii.zero || has_nul rest
  end.

Definition registry (encoding : string) (data : list byte) : codec_result :=
  if has_nul encoding then OtherError "ValueError: embedded null character"
  else
    match data with
    | [] => Decoded []
    | _ :: _ =>
        if String.eqb encoding "utf-8" then of_option (utf8 data)
        else if String.eqb encoding "latin1" then of_option (latin1 data)
        else if String.eqb encoding "cp1252" then of_option (cp1252 data)
        else if String.eqb encoding "ascii" then of_option (ascii data)
        else UnknownEncoding
    end.

End Codecs.

(** ** Inputs used to state properties

    [utf16le chars]: the UTF-16-LE bytes of a text whose characters are
    all below U+0100, given by their low bytes: each is followed by a NUL
    high byte. *)
Definition utf16le (chars : list byte) : list byte :=
  flat_map (fun c => [c; x00]) chars.

(** A byte the classifier does not count: not below 32, or one of tab,
    line feed and carriage return. *)
Definition uncounted (b : byte) : Prop :=
  32 <= Py.ord b \/ Py.ord b = 9 \/ Py.ord b = 10 \/ Py.ord b = 13.

(** ** _create_blob_service_client and download_blob_to_bytes

    The Azure SDK and the process environment are parameters: what the
    module does with them is modelled, what they answer is not. *)

Module Client.

(** The newline of the multi-line messages. *)
Definition nl : string := String (ascii_of_nat 10) EmptyString.

(** [needle in hay], for strings. *)
Fixpoint contains (needle hay : string) : bool :=
  String.prefix needle hay
  || match hay with
     | EmptyString => false
     | String _ rest => contains needle rest
     end.

(** [if value:] for the result of [os.getenv]: set and not empty. *)
Definition truthy (value : option string) : bool :=
  match value with
  | Some (String _ _) => true
  | Some EmptyString | None => false
  end.

(** The exceptions that leave the client functions: the three the module
    builds, with their messages, and [Raised e], an exception of the SDK
    that passes through unchanged. *)
Inductive exn (sdk_error : Type) : Type :=
| ImportError (msg : string)
| RuntimeError (msg : string)
| ValueError (msg : string)
| Raised (e : sdk_error).
Arguments ImportError {sdk_error} _.
Arguments RuntimeError {sdk_error} _.
Arguments ValueError {sdk_error} _.
Arguments Raised {sdk_error} _.

(** What the module uses of [azure.storage.blob] and [azure.identity]. *)
Record sdk (sdk_error credential client : Type) : Type := Sdk {
  (** [BlobServiceClient is not None]: the import at the top succeeded *)
  installed : bool;
  (** [str(e)] *)
  str : sdk_error -> string;
  (** [DefaultAzureCredential()] *)
  DefaultAzureCredential : sdk_error + credential;
  (** [BlobServiceClient(account_url=..., credential=...)] *)
  BlobServiceClient : string -> credential -> sdk_error + client;
  (** [BlobServiceClient.from_connection_string(conn_str)] *)
  from_connection_string : string -> sdk_error + client;
  (** [service.get_blob_client(container=..., blob=...).download_blob().readall()] *)
  readall : client -> string -> string -> sdk_error + list byte
}.
Arguments installed {sdk_error credential client} _.
Arguments str {sdk_error credential client} _ _.
Arguments DefaultAzureCredential {sdk_error credential client} _.
Arguments BlobServiceClient {sdk_error credential client} _ _ _.
Arguments from_connection_string {sdk_error credential client} _ _.
Arguments readall {sdk_error credential client} _ _ _ _.

Definition import_error_msg : string :=
  "azure-storage-blob is required. Install with: pip install azure-storage-blob".

Definition aad_error_msg (original : string) : string :=
  "Failed to create BlobServiceClient with DefaultAzureCredential. Ensure your environment is authenticated (Azure CLI, Managed Identity) and AZURE_STORAGE_ACCOUNT_URL is correct. Original error: "
  ++ original.

Definition key_auth_error_msg : string :=
  "Key-based authentication (connection string / account key) is not permitted for this storage account."
  ++ nl ++
  "Use Azure AD authentication instead: set AZURE_STORAGE_ACCOUNT_URL and authenticate with DefaultAzureCredential (Azure CLI, Managed Identity)."
  ++ nl ++
  "See: https://learn.microsoft.com/azure/storage/common/storage-auth-aad".

Definition no_configuration_msg : string :=
  "No Azure Storage connection configuration found. Set AZURE_STORAGE_ACCOUNT_URL (preferred) or AZURE_STORAGE_CONNECTION_STRING."
  ++ nl ++
  "If key-based auth is disabled on the storage account, use AZURE_STORAGE_ACCOUNT_URL and authenticate via Azure AD (Azure CLI, Managed Identity).".

Section Functions.

Context {sdk_error credential client : Type}.
(** [os.getenv] *)
Variable getenv : string -> option string.
Variable azure : sdk sdk_error credential client.

Definition _create_blob_service_client : exn sdk_error + client :=
  if negb (installed azure) then inl (ImportError import_error_msg)
  else
    match getenv "AZURE_STORAGE_ACCOUNT_URL" with
    | Some (String _ _ as account_url) =>
        match DefaultAzureCredential azure with
        | inr credential =>
            match BlobServiceClient azure account_url credential with
            | inr service => inr service
            | inl e => inl (RuntimeError (aad_error_msg (str azure e)))
            end
        | inl e => inl (RuntimeError (aad_error_msg (str azure e)))
        end
    | Some EmptyString | None =>
        match getenv "AZURE_STORAGE_CONNECTION_STRING" with
        | Some (String _ _ as conn_str) =>
            match from_connection_string azure conn_str with
            | inr service => inr service
            | inl e =>
                let msg := str azure e in
                if contains "KeyBasedAuthenticationNotPermitted" msg
                   || contains "Key based authentication is not permitted" msg
                then inl (RuntimeError key_auth_error_msg)
                else inl (Raised e)
            end
        | Some EmptyString | None => inl (ValueError no_configuration_msg)
        end
    end.

Definition download_blob_to_bytes (container_name blob_name : string)
  : exn sdk_error + list byte :=
  match _create_blob_service_client with
  | inl e => inl e
  | inr service =>
      match readall azure service container_name blob_name with
      | inl e => inl (Raised e)
      | inr data => inr data
      end
  end.

End Functions.

End Client.

(** ** download_blob_to_text *)

(** The two shapes of the return value: the text alone, or the text with
    the encoding that decoded it. *)
Inductive text_result : Type :=
| Text (decoded : Py.str)
| TextAndEncoding (decoded : Py.str) (used_encoding : string).

Definition csv_fallbacks : list string := ["latin1"; "cp1252"; "utf-16"; "ascii"].

Section DownloadText.

Context {sdk_error credential client : Type}.
Variable getenv : string -> option string.
Variable azure : Client.sdk sdk_error credential client.
Variable codec : string -> list byte -> codec_result.
(** [Path(blob_name).suffix.lower()]: [pathlib] and [str.lower] belong to
    the interpreter, and the path flavour to the platform. *)
Variable suffix_lower : string -> string.

(** [Client.exn] on the left: the download failed and nothing was decoded. *)
Definition download_blob_to_text (container_name blob_name encoding : string)
    (fallback_encodings : option (list string))
  : Client.exn sdk_error + run text_result :=
  match Client.download_blob_to_bytes getenv azure container_name blob_name with
  | inl e => inl e
  | inr data =>
      let ext := suffix_lower blob_name in
      let fallback_encodings :=
        if existsb (String.eqb ext) [".csv"; ".tsv"] && String.eqb encoding "utf-8"
        then Some csv_fallbacks
        else fallback_encodings in
      inr (found <- safe_decode codec data encoding fallback_encodings ;;
           let (decoded, used_encoding) := found in
           if negb (String.eqb used_encoding encoding)
           then ret (TextAndEncoding decoded used_encoding)
           else ret (Text decoded))
  end.

End DownloadText.

(** The return value as a function of the pair [safe_decode] returned. *)
Definition text_result_of (encoding : string) (found : Py.str * string) : text_result :=
  if negb (String.eqb (snd found) encoding)
  then TextAndEncoding (fst found) (snd found)
  else Text (fst found).

(** ** Reference instances for the parameters

    A path suffix for POSIX-style names without a trailing slash, with
    ASCII lower-casing (CPython 3.11's [PurePath.suffix]: from the last dot
    of the last component, unless that dot is its first or its last
    character); and an SDK that serves one blob. *)

Module Reference.

Definition lower (c : ascii) : ascii :=
  let n := nat_of_ascii c in
  if (65 <=? n)%nat && (n <=? 90)%nat then ascii_of_nat (n + 32) else c.

(** [name] reversed, cut at its first dot: the reversed extension and what
    is left of the dot, or [None] without a dot. *)
Fixpoint cut_at_dot (reversed : list ascii) : option (list ascii * list ascii) :=
  match reversed with
  | [] => None
  | c :: rest =>
      if Ascii.eqb c "." then Some ([], rest)
      else match cut_at_dot rest with
           | Some (ext, stem) => Some (c :: ext, stem)
           | None => None
           end
  end.

(** The last component, reversed. *)
Fixpoint last_component (reversed : list ascii) : list ascii :=
  match reversed with
  | [] => []
  | c :: rest => if Ascii.eqb c "/" then [] else c :: last_component rest
  end.

Definition suffix_lower (path : string) : string :=
  let name := last_component (rev (list_ascii_of_string path)) in
  match cut_at_dot name with
  | Some (c :: ext, s :: stem) =>
      string_of_list_ascii (map lower ("."%char :: rev (c :: ext)))
  | _ => EmptyString
  end.

(** An SDK whose exceptions are their messages, and whose one blob holds
    [data]. *)
Definition serving (data : list byte) : Client.sdk string unit unit :=
  Client.Sdk string unit unit true (fun e => e) (inr tt) (fun _ _ => inr tt)
             (fun _ => inr tt) (fun _ _ _ => inr data).

Definition environment (account_url conn_str : option string) (name : string)
  : option string :=
  if String.eqb name "AZURE_STORAGE_ACCOUNT_URL" then account_url
  else if String.eqb name "AZURE_STORAGE_CONNECTION_STRING" then conn_str
  else None.

End Reference.

(** ** format_size (test_blob_reader.py)

    [size_bytes] is an [int] on entry and a [float] after the first [/=].
    The [.1f] formatting of a float belongs to the interpreter and is a
    parameter; a reference instance follows. *)

Module Size.

Inductive number : Type :=
| Int (n : Z)
| Float (x : spec_float).

(** The one exception the arithmetic can raise: an [int] too large for a
    [float]. *)
Inductive exn : Type := OverflowError.

Definition is_finite (x : spec_float) : bool :=
  match x with
  | S754_zero _ | S754_finite _ _ _ => true
  | S754_infinity _ | S754_nan => false
  end.

(** [x < c] for a [float] and an [int], compared exactly. *)
Definition float_lt_int (x : spec_float) (c : Z) : bool :=
  match x with
  | S754_nan => false
  | S754_infinity s => s
  | S754_zero _ => 0 <? c
  | S754_finite s m e =>
      let v := cond_Zopp s (Zpos m) in
      if 0 <=? e then v * 2 ^ e <? c else v <? c * 2 ^ (- e)
  end.

(** [n / 1024 ** k] for an [int] [n], correctly rounded. *)
Definition scaled (n : Z) (k : Z) : spec_float :=
  binary_normalize F64.prec F64.emax n (- (10 * k)) false.

(** [size_bytes < 1024] *)
Definition lt_1024 (size_bytes : number) : bool :=
  match size_bytes with
  | Int n => n <? 1024
  | Float x => float_lt_int x 1024
  end.

(** [size_bytes /= 1024]: true division, of two [int]s the first time. *)
Definition div_1024 (size_bytes : number) : exn + number :=
  match size_bytes with
  | Int n =>
      if is_finite (scaled n 1) then inr (Float (scaled n 1)) else inl OverflowError
  | Float x => inr (Float (SFdiv F64.prec F64.emax x (F64.of_int 1024)))
  end.

(** The [float] that [:.1f] formats. *)
Definition to_float (size_bytes : number) : exn + spec_float :=
  match size_bytes with
  | Int n => if is_finite (F64.of_int n) then inr (F64.of_int n) else inl OverflowError
  | Float x => inr x
  end.

Section FormatSize.

(** [f"{x:.1f}"] *)
Variable format_1f : spec_float -> string.

(** [f"{size_bytes:.1f} {unit}"] *)
Definition show (size_bytes : number) (unit : string) : exn + string :=
  match to_float size_bytes with
  | inl e => inl e
  | inr x => inr (format_1f x ++ " " ++ unit)%string
  end.

(** The [for unit in ...] loop, and the [return] after it. *)
Fixpoint loop (units : list string) (size_bytes : number) : exn + string :=
  match units with
  | [] => show size_bytes "GB"
  | unit :: rest =>
      if lt_1024 size_bytes then show size_bytes unit
      else match div_1024 size_bytes with
           | inl e => inl e
           | inr size_bytes' => loop rest size_bytes'
           end
  end.

Definition format_size (size_bytes : Z) : exn + string :=
  loop ["B"; "KB"; "MB"; "GB"] (Int size_bytes).

End FormatSize.

(** Reference [.1f]: the exact value rounded to one decimal, ties to
    even. *)
Definition decimal (n : Z) : string :=
  DecimalString.NilZero.string_of_uint (N.to_uint (Z.to_N n)).

Definition tenths (m : positive) (e : Z) : Z :=
  if 0 <=? e then 10 * Zpos m * 2 ^ e
  else
    let den := 2 ^ (- e) in
    let q := (10 * Zpos m) / den in
    let r := (10 * Zpos m) mod den in
    if 2 * r <? den then q
    else if den <? 2 * r then q + 1
    else if Z.even q then q else q + 1.

Definition fixed_1 (x : spec_float) : string :=
  match x with
  | S754_nan => "nan"
  | S754_infinity s => if s then "-inf" else "inf"
  | S754_zero s => if s then "-0.0" else "0.0"
  | S754_finite s m e =>
      let t := tenths m e in
      ((if s then "-" else "") ++ decimal (t / 10) ++ "." ++ decimal (t mod 10))%string
  end.

End Size.

(** * Properties of the classifier *)

(** ** The verdict is one of two strings *)

Lemma guess_content_type_cases data sample_size :
  guess_content_type data sample_size = "binary" \/
  guess_content_type data sample_size = "text".
Proof.
  unfold guess_content_type.
  destruct (existsb _ binary_sigs); [now left|].
  destruct (F64.int_gt _ _); [now left | now right].
Qed.

(** ** Slices and prefixes *)

Lemma slice_to_nonneg {A} (data : list A) stop :
  0 <= stop -> Py.slice_to data stop = firstn (Z.to_nat stop) data.
Proof.
  intros H. unfold Py.slice_to.
  destruct (Z.ltb_spec stop 0); [lia | reflexivity].
Qed.

Lemma slice_to_idempotent {A} (data : list A) stop :
  0 <= stop -> Py.slice_to (Py.slice_to data stop) stop = Py.slice_to data stop.
Proof.
  intros H. rewrite !slice_to_nonneg by assumption.
  rewrite firstn_firstn, Nat.min_id. reflexivity.
Qed.

Lemma slice_to_app {A} (prefix rest : list A) stop :
  Py.len prefix = stop -> Py.slice_to (prefix ++ rest) stop = prefix.
Proof.
  intros <-. unfold Py.len. rewrite slice_to_nonneg by lia.
  rewrite Nat2Z.id, firstn_app, Nat.sub_diag, firstn_all, firstn_O.
  apply app_nil_r.
Qed.

Lemma startswith_app sig rest : Py.startswith (sig ++ rest) sig = true.
Proof.
  induction sig as [|s sig IH]; simpl; [reflexivity|].
  unfold Py.byte_eqb. rewrite (Strings.Byte.byte_dec_lb (eq_refl s)). exact IH.
Qed.

Lemma startswith_firstn sig rest n :
  (List.length sig <= n)%nat -> Py.startswith (firstn n (sig ++ rest)) sig = true.
Proof.
  intros H. rewrite firstn_app.
  rewrite (firstn_all2 sig) by assumption. apply startswith_app.
Qed.

(** ** Magic signatures *)

(** C4: when the sample starts with one of the five signatures ([%PDF-],
    [PK\x03\x04], [\x89PNG], [\xff\xd8\xff], [\x1f\x8b]) the verdict is
    binary; in particular a sequence made of a signature followed by any
    bytes at all is binary for every sample size that covers the
    signature. *)
Theorem guess_content_type_signature sig
  (Hsig : In sig [ [x25; x50; x44; x46; x2d];
                   [x50; x4b; x03; x04];
                   [x89; x50; x4e; x47];
                   [xff; xd8; xff];
                   [x1f; x8b] ]) :
  (forall data sample_size,
      Py.startswith (Py.slice_to data sample_size) sig = true ->
      guess_content_type data sample_size = "binary")
  /\
  (forall rest sample_size,
      Py.len sig <= sample_size ->
      guess_content_type (sig ++ rest) sample_size = "binary").
Proof.
  assert (Hstart : forall data sample_size,
             Py.startswith (Py.slice_to data sample_size) sig = true ->
             guess_content_type data sample_size = "binary").
  { intros data sample_size Hs. unfold guess_content_type.
    replace (existsb _ binary_sigs) with true; [reflexivity|].
    symmetry. apply existsb_exists. exists sig. split; [exact Hsig | exact Hs]. }
  split; [exact Hstart|].
  intros rest sample_size Hlen. apply Hstart.
  unfold Py.len in Hlen. rewrite slice_to_nonneg by lia.
  apply startswith_firstn. lia.
Qed.

Lemma guess_content_type_signature_witness :
  guess_content_type ([x1f; x8b] ++ [x48; x65; x6c; x6c; x6f]) 1024 = "binary".
Proof.
  apply (proj2 (guess_content_type_signature [x1f; x8b]
                  (or_intror (or_intror (or_intror (or_intror (or_introl eq_refl))))))).
  unfold Py.len. simpl. lia.
Defined.

(** ** The sample decides *)

(** C9, as stated, fails for a negative sample size, which Python's slice
    counts from the end: with [sample_size = -1] the sample of
    [b'AA\x00\x00'] is [b'AA\x00'] (one control byte in three: binary),
    while the sample of that prefix is [b'AA'] (text). *)
Lemma guess_content_type_negative_sample_size :
  guess_content_type [x41; x41; x00; x00] (-1) = "binary" /\
  Py.slice_to [x41; x41; x00; x00] (-1) = [x41; x41; x00] /\
  guess_content_type (Py.slice_to [x41; x41; x00; x00] (-1)) (-1) = "text" /\
  guess_content_type [x41; x41; x00; x00] (-1) <>
  guess_content_type (Py.slice_to [x41; x41; x00; x00] (-1)) (-1).
Proof. repeat split; try reflexivity. discriminate. Qed.

(** C9, amended: for every byte sequence and every non-negative sample
    size, the verdict on [data] is the verdict on [data[:sample_size]], and
    two sequences that share their first [sample_size] bytes get the same
    verdict whatever follows. *)
Theorem guess_content_type_prefix sample_size
  (Hsize : 0 <= sample_size) :
  (forall data,
      guess_content_type data sample_size =
      guess_content_type (Py.slice_to data sample_size) sample_size)
  /\
  (forall prefix rest1 rest2,
      Py.len prefix = sample_size ->
      guess_content_type (prefix ++ rest1) sample_size =
      guess_content_type (prefix ++ rest2) sample_size).
Proof.
  split.
  - intros data. unfold guess_content_type.
    rewrite slice_to_idempotent by assumption. reflexivity.
  - intros prefix rest1 rest2 Hlen. unfold guess_content_type.
    rewrite !(slice_to_app prefix _ sample_size Hlen). reflexivity.
Qed.

Lemma guess_content_type_prefix_witness :
  guess_content_type [x41; x41; x00; x00] 3 =
  guess_content_type (Py.slice_to [x41; x41; x00; x00] 3) 3.
Proof. apply (proj1 (guess_content_type_prefix 3 ltac:(lia))). Defined.

(** ** Binary64: the threshold [len(sample) * 0.3]

    [SFmul] rounds the exact product of the two mantissas to 53 bits. The
    lemmas below read the rounding off [binary_round_aux] as integer
    arithmetic: which quotient is kept, and on which side of the
    remainder. *)

Lemma pow2_succ d : 0 < d -> 2 ^ d = 2 * 2 ^ (d - 1).
Proof.
  intros H. rewrite <- Z.pow_succ_r by lia. f_equal. lia.
Qed.

Lemma Zdigits2_bounds p :
  2 ^ (Zdigits2 (Zpos p) - 1) <= Zpos p < 2 ^ Zdigits2 (Zpos p).
Proof.
  unfold Zdigits2.
  induction p as [p IH | p IH |]; cbn [digits2_pos];
    [ change (Zpos (PosDef.Pos.succ (digits2_pos p))) with (Zpos (Pos.succ (digits2_pos p)))
    | change (Zpos (PosDef.Pos.succ (digits2_pos p))) with (Zpos (Pos.succ (digits2_pos p)))
    | cbn; lia ].
  - rewrite Pos2Z.inj_succ.
    replace (Z.succ (Zpos (digits2_pos p)) - 1) with (Zpos (digits2_pos p)) by lia.
    rewrite Z.pow_succ_r by lia.
    rewrite (pow2_succ (Zpos (digits2_pos p))) in * by lia. lia.
  - rewrite Pos2Z.inj_succ.
    replace (Z.succ (Zpos (digits2_pos p)) - 1) with (Zpos (digits2_pos p)) by lia.
    rewrite Z.pow_succ_r by lia.
    rewrite (pow2_succ (Zpos (digits2_pos p))) in * by lia. lia.
Qed.

Lemma Zdigits2_unique m d :
  0 < d -> 2 ^ (d - 1) <= m < 2 ^ d -> Zdigits2 m = d.
Proof.
  intros Hd [Hlo Hhi].
  assert (0 < m) by (pose proof (Z.pow_pos_nonneg 2 (d - 1)); lia).
  destruct m as [|p|p]; try lia.
  pose proof (Zdigits2_bounds p) as [Blo Bhi].
  set (d' := Zdigits2 (Zpos p)) in *.
  assert (0 < d') by (subst d'; simpl; lia).
  assert (d - 1 < d') by (apply (Z.pow_lt_mono_r_iff 2); lia).
  assert (d' - 1 < d) by (apply (Z.pow_lt_mono_r_iff 2); lia).
  lia.
Qed.

Lemma iter_pos_nat {A} (f : A -> A) p x :
  iter_pos f p x = Nat.iter (Pos.to_nat p) f x.
Proof.
  revert x. induction p as [p IH | p IH |]; intros x; cbn [iter_pos].
  - rewrite !IH, Pos2Nat.inj_xI. rewrite <- Nat.iter_add.
    replace (Pos.to_nat p + Pos.to_nat p)%nat with (2 * Pos.to_nat p)%nat by lia.
    rewrite <- Nat.iter_succ_r. reflexivity.
  - rewrite !IH, Pos2Nat.inj_xO. rewrite <- Nat.iter_add.
    f_equal. lia.
  - reflexivity.
Qed.

Lemma shr_1_nonneg q r s :
  0 <= q ->
  shr_1 (Build_shr_record q r s) = Build_shr_record (q / 2) (Z.odd q) (r || s).
Proof.
  intros Hq. rewrite <- Z.div2_div.
  destruct q as [|[p|p|]|p]; try lia; reflexivity.
Qed.

Ltac bool_arith :=
  repeat match goal with
    | |- context [?a <=? ?b] => destruct (Z.leb_spec a b)
    | |- context [?a =? ?b] => destruct (Z.eqb_spec a b)
    end;
  cbn [orb negb andb]; try reflexivity; try lia.

(** The record after [k] one-bit shifts of [m]. *)
Lemma iter_shr_1 m k :
  0 <= m ->
  let T := 2 ^ Z.of_nat k in
  let rho := m mod T in
  let r := T <=? 2 * rho in
  Nat.iter k shr_1 (Build_shr_record m false false) =
  Build_shr_record (m / T) r (negb (2 * rho =? (if r then T else 0))).
Proof.
  intros Hm. induction k as [|k IH].
  - cbn. rewrite Z.div_1_r, Z.mod_1_r. reflexivity.
  - cbn zeta in IH |- *. rewrite Nat.iter_succ, IH.
    assert (HT : 0 < 2 ^ Z.of_nat k) by (apply Z.pow_pos_nonneg; lia).
    rewrite Nat2Z.inj_succ, Z.pow_succ_r by lia.
    set (T := 2 ^ Z.of_nat k) in *.
    pose proof (Z.div_mod m T ltac:(lia)) as Hdm.
    pose proof (Z.mod_pos_bound m T HT) as Hrho.
    assert (Hq : 0 <= m / T) by (apply Z.div_pos; lia).
    set (q := m / T) in *. set (rho := m mod T) in *.
    rewrite shr_1_nonneg by assumption.
    pose proof (Z.div_mod q 2 ltac:(lia)) as Hq2.
    pose proof (Z.mod_pos_bound q 2 ltac:(lia)) as Hb.
    assert (Hodd : Z.odd q = (q mod 2 =? 1)).
    { rewrite Zmod_odd. destruct (Z.odd q); reflexivity. }
    set (q' := q / 2) in *. set (b := q mod 2) in *.
    assert (Hdiv : m / (2 * T) = q').
    { symmetry. apply (Z.div_unique_pos m (2 * T) q' (b * T + rho)); nia. }
    assert (Hmod : m mod (2 * T) = b * T + rho).
    { symmetry. apply (Z.mod_unique_pos m (2 * T) q' (b * T + rho)); nia. }
    rewrite Hdiv, Hmod, Hodd.
    assert (b = 0 \/ b = 1) as [-> | ->] by lia; f_equal; bool_arith.
Qed.

Lemma round_shifted m ps :
  0 <= m ->
  let rec := iter_pos shr_1 ps (shr_record_of_loc m loc_Exact) in
  let m1 := round_nearest_even (shr_m rec) (loc_of_shr_record rec) in
  let T := 2 ^ Zpos ps in
  (m1 = m / T /\ 2 * (m mod T) <= T) \/ (m1 = m / T + 1 /\ T <= 2 * (m mod T)).
Proof.
  intros Hm. cbn zeta.
  rewrite iter_pos_nat. cbn [shr_record_of_loc].
  rewrite (iter_shr_1 m (Pos.to_nat ps) Hm), positive_nat_Z.
  set (T := 2 ^ Zpos ps). set (rho := m mod T).
  assert (0 < T) by (apply Z.pow_pos_nonneg; lia).
  pose proof (Z.mod_pos_bound m T ltac:(lia)) as Hrho. fold rho in Hrho.
  cbn [shr_m loc_of_shr_record].
  destruct (Z.leb_spec T (2 * rho)) as [Hge | Hlt].
  - destruct (Z.eqb_spec (2 * rho) T) as [Heq | Hne]; cbn [negb round_nearest_even].
    + destruct (Z.even (m / T)); [left | right]; split; lia.
    + right. split; lia.
  - destruct (Z.eqb_spec (2 * rho) 0); cbn [negb round_nearest_even]; left; split; lia.
Qed.

Lemma shr_fexp_shift m e l d :
  Zdigits2 m = d -> 53 < d -> -1074 <= e + d - 53 ->
  shr_fexp 53 1024 m e l =
  (iter_pos shr_1 (Z.to_pos (d - 53)) (shr_record_of_loc m l), e + (d - 53)).
Proof.
  intros Hd Hgt Hmin. unfold shr_fexp, fexp, emin. rewrite Hd.
  replace (Z.max (d + e - 53) (3 - 1024 - 53) - e) with (d - 53) by lia.
  unfold shr. destruct (d - 53) eqn:E; try lia. reflexivity.
Qed.

Lemma shr_fexp_keep m e l :
  Zdigits2 m = 53 -> -1074 <= e ->
  shr_fexp 53 1024 m e l = (shr_record_of_loc m l, e).
Proof.
  intros Hd Hmin. unfold shr_fexp, fexp, emin. rewrite Hd.
  replace (Z.max (53 + e - 53) (3 - 1024 - 53) - e) with 0 by lia.
  reflexivity.
Qed.

(** A mantissa that has 53 bits already is kept as it is. *)
Lemma binary_round_aux_keep p e :
  Zdigits2 (Zpos p) = 53 -> -1074 <= e <= 971 ->
  binary_round_aux 53 1024 false (Zpos p) e loc_Exact = S754_finite false p e.
Proof.
  intros Hd He. unfold binary_round_aux.
  rewrite (shr_fexp_keep _ _ _ Hd) by lia. cbn [shr_record_of_loc shr_m loc_of_shr_record round_nearest_even].
  rewrite (shr_fexp_keep _ _ _ Hd) by lia. cbn [shr_record_of_loc shr_m].
  destruct (Z.leb_spec e (1024 - 53)); [reflexivity | lia].
Qed.

(** A mantissa of [53 + s] bits loses its [s] low bits: the kept part is
    the quotient or its successor, on the side of the remainder. *)
Lemma binary_round_aux_shift m e s :
  0 < m -> 0 < s -> Zdigits2 m = 53 + s -> -1074 <= e + s -> e + s < 971 ->
  exists m' j,
    binary_round_aux 53 1024 false m e loc_Exact = S754_finite false m' (e + s + j) /\
    (j = 0 \/ j = 1) /\
    let m1 := Zpos m' * 2 ^ j in
    (m1 = m / 2 ^ s /\ 2 * (m mod 2 ^ s) <= 2 ^ s) \/
    (m1 = m / 2 ^ s + 1 /\ 2 ^ s <= 2 * (m mod 2 ^ s)).
Proof.
  intros Hm Hs Hd Hlo Hhi.
  destruct m as [|p|p]; try lia.
  pose proof (Zdigits2_bounds p) as [Blo Bhi]. rewrite Hd in Blo, Bhi.
  unfold binary_round_aux.
  rewrite (shr_fexp_shift _ _ _ _ Hd) by lia.
  replace (53 + s - 53) with s by lia.
  destruct s as [|ps|ps]; try lia. cbn [Z.to_pos].
  pose proof (round_shifted (Zpos p) ps ltac:(lia)) as Hround. cbn zeta in Hround.
  set (m1 := round_nearest_even _ _) in *.
  set (T := 2 ^ Zpos ps) in *.
  assert (HT : 0 < T) by (apply Z.pow_pos_nonneg; lia).
  replace (53 + Zpos ps - 1) with (52 + Zpos ps) in Blo by lia.
  rewrite Z.pow_add_r in Blo, Bhi by lia. fold T in Blo, Bhi.
  pose proof (Z.div_mod (Zpos p) T ltac:(lia)) as Hdm.
  pose proof (Z.mod_pos_bound (Zpos p) T HT) as Hrho.
  assert (Hq : 2 ^ 52 <= Zpos p / T < 2 ^ 53).
  { split; [apply Z.div_le_lower_bound | apply Z.div_lt_upper_bound]; lia. }
  assert (Hm1 : 2 ^ 52 <= m1 <= 2 ^ 53) by lia.
  destruct (Z.eq_dec m1 (2 ^ 53)) as [Htop | Hnot].
  - rewrite Htop.
    rewrite (shr_fexp_shift (2 ^ 53) _ loc_Exact 54 eq_refl) by lia.
    exists (Z.to_pos (2 ^ 52)), 1. split; [|split; [now right|]].
    + replace (e + Zpos ps + (54 - 53)) with (e + Zpos ps + 1) by lia.
      match goal with
      | |- context [shr_m ?r] => change (shr_m r) with (Zpos (Z.to_pos (2 ^ 52)))
      end.
      cbv iota.
      destruct (Z.leb_spec (e + Zpos ps + 1) (1024 - 53)); [reflexivity | lia].
    + cbn zeta. replace (Zpos (Z.to_pos (2 ^ 52)) * 2 ^ 1) with (2 ^ 53) by reflexivity.
      rewrite <- Htop. exact Hround.
  - assert (Hd1 : Zdigits2 m1 = 53) by (apply Zdigits2_unique; lia).
    rewrite (shr_fexp_keep _ _ _ Hd1) by lia.
    cbn [shr_record_of_loc shr_m].
    destruct m1 as [|p1|p1] eqn:Em1; try lia.
    exists p1, 0. split; [|split; [now left|]].
    + replace (e + Zpos ps + 0) with (e + Zpos ps) by lia.
      destruct (Z.leb_spec (e + Zpos ps) (1024 - 53)); [reflexivity | lia].
    + cbn zeta. rewrite Z.pow_0_r, Z.mul_1_r. exact Hround.
Qed.

Lemma pos_iter_xO p k : Zpos (Pos.iter xO p k) = Zpos p * 2 ^ Zpos k.
Proof.
  induction k as [|k IH] using Pos.peano_ind.
  - cbn. lia.
  - rewrite Pos.iter_succ, Pos2Z.inj_succ, Z.pow_succ_r by lia.
    change (Zpos (Pos.iter xO p k)~0) with (2 * Zpos (Pos.iter xO p k)).
    rewrite IH. ring.
Qed.

(** [float(n)] is exact below 2^53: the mantissa is [n] shifted to 53
    bits. *)
Lemma of_int_exact n :
  0 < n < 2 ^ 53 ->
  exists mx a,
    F64.of_int n = S754_finite false mx (- a) /\
    0 <= a < 53 /\ Zpos mx = n * 2 ^ a /\ 2 ^ 52 <= Zpos mx < 2 ^ 53.
Proof.
  intros [Hpos Hlt]. destruct n as [|p|p]; try lia.
  unfold F64.of_int, F64.prec, F64.emax, binary_normalize, binary_round.
  pose proof (Zdigits2_bounds p) as [Blo Bhi]. cbn [Zdigits2] in Blo, Bhi.
  set (d := Zpos (digits2_pos p)) in *.
  assert (Hd : 0 < d <= 53).
  { split; [subst d; lia|].
    destruct (Z_le_gt_dec d 53) as [|Hgt]; [assumption | exfalso].
    assert (2 ^ 53 <= 2 ^ (d - 1)) by (apply Z.pow_le_mono_r; lia). lia. }
  unfold fexp, emin.
  replace (Z.max (d + 0 - 53) (3 - 1024 - 53)) with (d - 53) by lia.
  unfold shl_align.
  destruct (d - 53 - 0) as [|k|k] eqn:Ek; try lia.
  - assert (d = 53) as Hd53 by lia.
    exists p, 0. rewrite binary_round_aux_keep by (cbn [Zdigits2]; fold d; lia).
    rewrite Hd53 in *. cbn [Z.opp]. repeat split; try lia.
  - change (PosDef.Pos.iter xO p k) with (Pos.iter xO p k).
    pose proof (pos_iter_xO p k) as Hmz.
    set (mz := Pos.iter xO p k) in *.
    assert (Hk : Zpos k = 53 - d) by lia.
    assert (HA : 0 < 2 ^ Zpos k) by (apply Z.pow_pos_nonneg; lia).
    assert (Hpow : 2 ^ (d - 1) * 2 ^ Zpos k = 2 ^ 52).
    { rewrite <- Z.pow_add_r by lia. f_equal. lia. }
    assert (Hpow' : 2 ^ d * 2 ^ Zpos k = 2 ^ 53).
    { rewrite <- Z.pow_add_r by lia. f_equal. lia. }
    assert (Hrange : 2 ^ 52 <= Zpos mz < 2 ^ 53) by nia.
    exists mz, (Zpos k).
    rewrite binary_round_aux_keep by (try apply Zdigits2_unique; lia).
    replace (d - 53) with (- Zpos k) by lia.
    repeat split; try lia.
Qed.

(** The six lengths from 7505999378950827 on, where the product of the
    mantissas reaches 106 bits with [float(n)] of exponent 0, are settled
    by evaluation of the product. *)
Lemma threshold_exact_top n c :
  7505999378950827 <= n < 7505999378950833 ->
  F64.int_gt c (F64.mul (F64.of_int n) F64.lit_0_3) = (3 * n <? 10 * c).
Proof.
  intros Hn.
  assert (Hcases : n = 7505999378950827 \/ n = 7505999378950828 \/
                   n = 7505999378950829 \/ n = 7505999378950830 \/
                   n = 7505999378950831 \/ n = 7505999378950832) by lia.
  repeat (destruct Hcases as [-> | Hcases]); try subst n;
    match goal with
    | |- F64.int_gt c ?f = _ =>
        let v := eval vm_compute in f in change f with v
    end;
    unfold F64.int_gt; cbn [cond_Zopp];
    match goal with
    | |- (if ?t then _ else _) = _ =>
        let v := eval vm_compute in t in change t with v
    end;
    cbv iota;
    match goal with
    | |- (?x <? ?y) = (?u <? ?w) =>
        destruct (Z.ltb_spec x y), (Z.ltb_spec u w); try reflexivity; exfalso; lia
    end.
Qed.


(** The threshold test is the exact test [3 n < 10 c] for every length
    below 7505999378950833. *)
Lemma threshold_exact n c :
  0 <= n < 7505999378950833 ->
  F64.int_gt c (F64.mul (F64.of_int n) F64.lit_0_3) = (3 * n <? 10 * c).
Proof.
  intros [Hn0 Hn].
  destruct (Z.eq_dec n 0) as [-> | Hnz].
  { change (F64.int_gt c (F64.mul (F64.of_int 0) F64.lit_0_3)) with (0 <? c).
    destruct (Z.ltb_spec 0 c), (Z.ltb_spec (3 * 0) (10 * c)); try reflexivity; lia. }
  destruct (Z_lt_ge_dec n 7505999378950827) as [Hbelow | Htop];
    [| apply threshold_exact_top; lia].
  destruct (of_int_exact n ltac:(lia)) as (mx & a & Hof & Ha & Hmx & Hrange).
  rewrite Hof. unfold F64.mul, F64.lit_0_3, F64.prec, F64.emax, SFmul.
  cbn [xorb]. rewrite Pos2Z.inj_mul.
  remember (Zpos mx) as X eqn:EX.
  remember (2 ^ a) as A eqn:EA.
  assert (HA : (a = 0 /\ A = 1) \/ (a = 1 /\ A = 2) \/ (2 <= a /\ 4 <= A)).
  { subst A. destruct (Z.eq_dec a 0) as [-> | Ha0]; [now left|].
    destruct (Z.eq_dec a 1) as [-> | Ha1]; [right; now left|].
    right; right. split; [lia|].
    change 4 with (2 ^ 2). apply Z.pow_le_mono_r; lia. }
  assert (Hcmp : 
            (3 * n + 1 <= 10 * c -> 3 * X + A <= 10 * (c * A)) /\
            (10 * c <= 3 * n - 1 -> 10 * (c * A) <= 3 * X - A) /\
            (10 * c = 3 * n -> 10 * (c * A) = 3 * X)).
  { rewrite Hmx. repeat split; intros; nia. }
  destruct Hcmp as (Hup & Hdown & Heq).
  remember (c * A) as Y eqn:EY.
  assert (Hsmall : a = 0 -> X * 5404319552844595 < 2 ^ 105).
  { intros ->. rewrite Z.pow_0_r in EA. subst A. lia. }
  assert (HP : 0 < X * 5404319552844595) by lia.
  clear Hof EX Hmx Hn0 Hn Hnz Hbelow.
  destruct (Z_lt_ge_dec (X * 5404319552844595) (2 ^ 105)) as [Hbits | Hbits];
    [ assert (Hdig : Zdigits2 (X * 5404319552844595) = 53 + 52)
        by (apply Zdigits2_unique; lia);
      destruct (binary_round_aux_shift (X * 5404319552844595) (- a + -54) 52 HP ltac:(lia) Hdig
                  ltac:(lia) ltac:(lia)) as (m' & j & -> & Hj & Hround)
    | assert (Hdig : Zdigits2 (X * 5404319552844595) = 53 + 53)
        by (apply Zdigits2_unique; lia);
      destruct (binary_round_aux_shift (X * 5404319552844595) (- a + -54) 53 HP ltac:(lia) Hdig
                  ltac:(lia) ltac:(lia)) as (m' & j & -> & Hj & Hround) ];
    cbn zeta in Hround; clear Hdig.
  all: unfold F64.int_gt; cbn [cond_Zopp].
  all: destruct Hj as [-> | ->].
  all: match goal with
    | |- context [0 <=? ?e] =>
        destruct (Z.leb_spec 0 e) as [Habs | _]; [exfalso; lia|]
    end.
  all: pose proof (Z.div_mod (X * 5404319552844595) (2 ^ 52) ltac:(lia)) as Hdm52.
  all: pose proof (Z.mod_pos_bound (X * 5404319552844595) (2 ^ 52) ltac:(lia)) as Hr52.
  all: pose proof (Z.div_mod (X * 5404319552844595) (2 ^ 53) ltac:(lia)) as Hdm53.
  all: pose proof (Z.mod_pos_bound (X * 5404319552844595) (2 ^ 53) ltac:(lia)) as Hr53.
  - replace (- (- a + -54 + 52 + 0)) with (a + 2) by lia.
    rewrite Z.pow_add_r, <- EA by lia.
    replace (c * (A * 2 ^ 2)) with (Y * 4) by (subst Y; ring).
    destruct (Z.ltb_spec (Zpos m') (Y * 4)), (Z.ltb_spec (3 * n) (10 * c));
      try reflexivity; exfalso; lia.
  - replace (- (- a + -54 + 52 + 1)) with (a + 1) by lia.
    rewrite Z.pow_add_r, <- EA by lia.
    replace (c * (A * 2 ^ 1)) with (Y * 2) by (subst Y; ring).
    destruct (Z.ltb_spec (Zpos m') (Y * 2)), (Z.ltb_spec (3 * n) (10 * c));
      try reflexivity; exfalso; lia.
  - replace (- (- a + -54 + 53 + 0)) with (a + 1) by lia.
    rewrite Z.pow_add_r, <- EA by lia.
    replace (c * (A * 2 ^ 1)) with (Y * 2) by (subst Y; ring).
    destruct (Z.ltb_spec (Zpos m') (Y * 2)), (Z.ltb_spec (3 * n) (10 * c));
      try reflexivity; exfalso; lia.
  - replace (- (- a + -54 + 53 + 1)) with a by lia.
    rewrite <- EA, <- EY.
    destruct (Z.ltb_spec (Zpos m') Y), (Z.ltb_spec (3 * n) (10 * c));
      try reflexivity; exfalso; lia.
Qed.

(** ** Counting control bytes *)

Lemma sum_ones {A} (l : list A) acc :
  fold_left Z.add (map (fun _ => 1) l) acc = acc + Py.len l.
Proof.
  revert acc. unfold Py.len.
  induction l as [|x l IH]; intros acc; cbn [map fold_left List.length].
  - lia.
  - rewrite IH. lia.
Qed.

Lemma control_chars_count sample :
  control_chars sample = Py.len (filter is_control sample).
Proof. unfold control_chars, Py.sum. rewrite sum_ones. lia. Qed.

Lemma is_control_spelled b :
  is_control b =
  (Py.ord b <? 32) && negb (Py.ord b =? 9) && negb (Py.ord b =? 10)
  && negb (Py.ord b =? 13).
Proof.
  unfold is_control. cbn [existsb].
  destruct (Py.ord b <? 32), (Py.ord b =? 9), (Py.ord b =? 10), (Py.ord b =? 13);
    reflexivity.
Qed.

Lemma slice_to_len_le {A} (data : list A) stop :
  0 <= stop -> Py.len (Py.slice_to data stop) <= stop.
Proof.
  intros H. rewrite slice_to_nonneg by assumption.
  unfold Py.len. rewrite length_firstn. lia.
Qed.

Lemma guess_content_type_no_signature data sample_size :
  Forall (fun sig => Py.startswith (Py.slice_to data sample_size) sig = false) binary_sigs ->
  guess_content_type data sample_size =
  if F64.int_gt (control_chars (Py.slice_to data sample_size))
                (F64.mul (F64.of_int (Py.len (Py.slice_to data sample_size))) F64.lit_0_3)
  then "binary" else "text".
Proof.
  intros Hno. unfold guess_content_type.
  replace (existsb _ binary_sigs) with false; [reflexivity|].
  symmetry. apply not_true_is_false. intros Hex.
  apply existsb_exists in Hex. destruct Hex as (sig & Hin & Hstart).
  rewrite Forall_forall in Hno. rewrite (Hno sig Hin) in Hstart. discriminate.
Qed.

(** ** The 30% threshold *)

(** C5: when the sample starts with no binary signature, the verdict is
    binary exactly when the number of sample bytes below 32 other than 9,
    10 and 13 strictly exceeds 30% of the sample length (ten times the
    count is more than three times the length), and text otherwise. The
    sample is shorter than 7505999378950833 bytes (6.7 PiB), as every
    sample held in memory is, and every sample taken with the default
    size 1024: up to there the binary64 product [len(sample) * 0.3]
    decides as the exact 30% does. *)
Theorem guess_content_type_threshold data sample_size
  (Hnosig : Forall (fun sig => Py.startswith (Py.slice_to data sample_size) sig = false)
                   binary_sigs)
  (Hshort : Py.len (Py.slice_to data sample_size) < 7505999378950833) :
  let sample := Py.slice_to data sample_size in
  let count :=
    Py.len (filter (fun b => (Py.ord b <? 32) && negb (Py.ord b =? 9)
                             && negb (Py.ord b =? 10) && negb (Py.ord b =? 13))
                   sample) in
  guess_content_type data sample_size =
  if 3 * Py.len sample <? 10 * count then "binary" else "text".
Proof.
  cbn zeta.
  rewrite (guess_content_type_no_signature _ _ Hnosig).
  rewrite control_chars_count.
  rewrite (filter_ext _ _ is_control_spelled).
  rewrite threshold_exact; [reflexivity|].
  split; [unfold Py.len; lia | exact Hshort].
Qed.

Lemma guess_content_type_threshold_witness :
  guess_content_type [x00; x41; x00; x42; x43; x44; x45; x46; x47; x48] 1024 = "text" /\
  guess_content_type [x00; x41; x00; x42; x00; x44; x45; x46; x47; x48; x49] 1024 = "text" /\
  guess_content_type [x00; x41; x00; x42; x00; x00; x45; x46; x47; x48] 1024 = "binary".
Proof.
  split; [|split].
  - apply (guess_content_type_threshold
             [x00; x41; x00; x42; x43; x44; x45; x46; x47; x48] 1024).
    + repeat constructor.
    + unfold Py.len. simpl. lia.
  - apply (guess_content_type_threshold
             [x00; x41; x00; x42; x00; x44; x45; x46; x47; x48; x49] 1024).
    + repeat constructor.
    + unfold Py.len. simpl. lia.
  - apply (guess_content_type_threshold
             [x00; x41; x00; x42; x00; x00; x45; x46; x47; x48] 1024).
    + repeat constructor.
    + unfold Py.len. simpl. lia.
Defined.

(** *** Where the double-precision product rounds across the threshold *)

Lemma slice_to_all {A} (data : list A) stop :
  Py.len data <= stop -> Py.slice_to data stop = data.
Proof.
  intros H. unfold Py.len in H. rewrite slice_to_nonneg by lia.
  apply firstn_all2. lia.
Qed.

Lemma filter_repeat {A} (f : A -> bool) x k :
  filter f (repeat x k) = if f x then repeat x k else [].
Proof.
  induction k as [|k IH]; cbn [repeat filter].
  - destruct (f x); reflexivity.
  - rewrite IH. destruct (f x); reflexivity.
Qed.

(** [c] NUL bytes followed by [m] letters, sampled whole. *)
Lemma guess_content_type_nul_run c m :
  (0 < c)%nat ->
  let data := repeat x00 c ++ repeat x41 m in
  Py.slice_to data (Z.of_nat (c + m)) = data /\
  Forall (fun sig => Py.startswith data sig = false) binary_sigs /\
  Py.len data = Z.of_nat (c + m) /\
  Py.len (filter is_control data) = Z.of_nat c /\
  guess_content_type data (Z.of_nat (c + m)) =
  if F64.int_gt (Z.of_nat c) (F64.mul (F64.of_int (Z.of_nat (c + m))) F64.lit_0_3)
  then "binary" else "text".
Proof.
  intros Hc. cbn zeta.
  assert (Hlen : Py.len (repeat x00 c ++ repeat x41 m) = Z.of_nat (c + m)).
  { unfold Py.len. rewrite length_app, !repeat_length. reflexivity. }
  assert (Hall : Py.slice_to (repeat x00 c ++ repeat x41 m) (Z.of_nat (c + m))
                 = repeat x00 c ++ repeat x41 m).
  { apply slice_to_all. rewrite Hlen. lia. }
  assert (Hsig : Forall (fun sig => Py.startswith (repeat x00 c ++ repeat x41 m) sig = false)
                        binary_sigs).
  { destruct c as [|c']; [lia|]. cbn [repeat app]. repeat constructor. }
  assert (Hcount : Py.len (filter is_control (repeat x00 c ++ repeat x41 m)) = Z.of_nat c).
  { rewrite filter_app, !filter_repeat.
    change (is_control x00) with true. change (is_control x41) with false.
    cbv iota. rewrite app_nil_r. unfold Py.len. rewrite repeat_length. reflexivity. }
  repeat split; try assumption.
  rewrite guess_content_type_no_signature by (rewrite Hall; exact Hsig).
  rewrite Hall, control_chars_count, Hcount, Hlen. reflexivity.
Qed.

Lemma threshold_rounds_up :
  F64.int_gt 2251799813685250
             (F64.mul (F64.of_int 7505999378950833) F64.lit_0_3) = false.
Proof. vm_compute. reflexivity. Qed.

(** The length bound of [guess_content_type_threshold] is the first
    length at which the product and the exact 30% part: of
    7505999378950833 bytes, 2251799813685250 are NUL; ten times the count
    is one more than three times the length, but the binary64 product
    [7505999378950833 * 0.3] rounds up to 2251799813685250.0, the count
    does not exceed it, and the verdict is text. *)
Lemma guess_content_type_threshold_rounding :
  let data := repeat x00 (Z.to_nat 2251799813685250)
              ++ repeat x41 (Z.to_nat 5254199565265583) in
  let sample := Py.slice_to data 7505999378950833 in
  Forall (fun sig => Py.startswith sample sig = false) binary_sigs /\
  Py.len sample = 7505999378950833 /\
  Py.len (filter is_control sample) = 2251799813685250 /\
  3 * 7505999378950833 < 10 * 2251799813685250 /\
  guess_content_type data 7505999378950833 = "text".
Proof.
  cbn zeta.
  assert (Hc : (0 < Z.to_nat 2251799813685250)%nat) by lia.
  pose proof (guess_content_type_nul_run
                (Z.to_nat 2251799813685250) (Z.to_nat 5254199565265583) Hc) as H.
  cbn zeta in H.
  assert (Hn : Z.of_nat (Z.to_nat 2251799813685250 + Z.to_nat 5254199565265583)
               = 7505999378950833) by lia.
  assert (Hk : Z.of_nat (Z.to_nat 2251799813685250) = 2251799813685250) by lia.
  rewrite Hn, Hk in H.
  destruct H as (Hall & Hsig & Hlen & Hcount & Hverdict).
  rewrite Hall.
  split; [exact Hsig|]. split; [exact Hlen|]. split; [exact Hcount|].
  split; [lia|].
  rewrite Hverdict, threshold_rounds_up. reflexivity.
Qed.

(** * Properties of the decoder *)

(** ** The log and the exceptions *)

Section RunFacts.

Variable codec : string -> list byte -> codec_result.

(** One call of the codec, by what the codec answers. *)
Ltac run_attempt H :=
  unfold attempt, try_except_UnicodeError, decode, bind; cbn;
  rewrite H; reflexivity.

Lemma attempt_decoded data enc text :
  codec enc data = Decoded text ->
  attempt codec data enc = Run [enc] (inr (Some (text, enc))).
Proof. intros H. run_attempt H. Qed.

Lemma attempt_undecodable data enc :
  codec enc data = Undecodable ->
  attempt codec data enc = Run [enc] (inr None).
Proof. intros H. run_attempt H. Qed.

Lemma attempt_unknown data enc :
  codec enc data = UnknownEncoding ->
  attempt codec data enc = Run [enc] (inl (LookupError enc)).
Proof. intros H. run_attempt H. Qed.

Lemma attempt_raised data enc what :
  codec enc data = OtherError what ->
  attempt codec data enc = Run [enc] (inl (Raised what)).
Proof. intros H. run_attempt H. Qed.

Lemma scan_cons data enc encs log r :
  codec enc data = Undecodable ->
  scan codec data encs log r -> scan codec data (enc :: encs) (enc :: log) r.
Proof.
  intros Hu Hs. inversion Hs; subst.
  - apply scan_all. constructor; assumption.
  - apply (scan_hit codec data (enc :: pre)); [constructor|]; assumption.
  - apply (scan_unknown codec data (enc :: pre)); [constructor|]; assumption.
  - apply (scan_raised codec data (enc :: pre)); [constructor|]; assumption.
Qed.

Lemma try_fallbacks_scan data encs :
  scan codec data encs (attempts (try_fallbacks codec data encs))
                 (result (try_fallbacks codec data encs)).
Proof.
  induction encs as [|enc rest IH]; simpl.
  - apply scan_all. constructor.
  - destruct (codec enc data) as [text| | |what] eqn:E.
    + rewrite (attempt_decoded _ _ _ E). cbn.
      apply (scan_hit codec data [] enc rest text); [constructor | exact E].
    + rewrite (attempt_undecodable _ _ E). cbn.
      apply scan_cons; assumption.
    + rewrite (attempt_unknown _ _ E). cbn.
      apply (scan_unknown codec data [] enc rest); [constructor | exact E].
    + rewrite (attempt_raised _ _ _ E). cbn.
      apply (scan_raised codec data [] enc rest what); [constructor | exact E].
Qed.

Lemma try_fallbacks_skip data pre encs :
  Forall (fun e => codec e data = Undecodable) pre ->
  try_fallbacks codec data (pre ++ encs) =
  Run (pre ++ attempts (try_fallbacks codec data encs))
      (result (try_fallbacks codec data encs)).
Proof.
  induction 1 as [|e pre He _ IH]; simpl.
  - destruct (try_fallbacks codec data encs); reflexivity.
  - rewrite (attempt_undecodable _ _ He), IH. reflexivity.
Qed.

Lemma try_fallbacks_exhausted data encs :
  Forall (fun e => codec e data = Undecodable) encs ->
  try_fallbacks codec data encs = Run encs (inr None).
Proof.
  intros H. rewrite <- (app_nil_r encs) at 1.
  rewrite (try_fallbacks_skip _ _ _ H). simpl. rewrite app_nil_r. reflexivity.
Qed.

Lemma try_fallbacks_hit data pre enc post text :
  Forall (fun e => codec e data = Undecodable) pre ->
  codec enc data = Decoded text ->
  try_fallbacks codec data (pre ++ enc :: post) =
  Run (pre ++ [enc]) (inr (Some (text, enc))).
Proof.
  intros Hpre Henc. rewrite (try_fallbacks_skip _ _ _ Hpre). simpl.
  rewrite (attempt_decoded _ _ _ Henc). reflexivity.
Qed.

Lemma safe_decode_on_text data primary fbs :
  guess_content_type data default_sample_size = "text" ->
  safe_decode codec data primary fbs =
  match codec primary data with
  | Decoded text => Run [primary] (inr (text, primary))
  | UnknownEncoding => Run [primary] (inl (LookupError primary))
  | OtherError what => Run [primary] (inl (Raised what))
  | Undecodable =>
      let rest := try_fallbacks codec data (effective_fallbacks fbs) in
      Run (primary :: attempts rest) (finish primary fbs data (result rest))
  end.
Proof.
  intros Htext. unfold safe_decode. rewrite Htext. simpl (String.eqb _ _).
  cbv iota.
  destruct (codec primary data) as [text| | |what] eqn:E.
  - rewrite (attempt_decoded _ _ _ E). reflexivity.
  - rewrite (attempt_undecodable _ _ E).
    destruct (try_fallbacks codec data (effective_fallbacks fbs)) as [log [e|[found|]]];
      cbn; rewrite ?app_nil_r; reflexivity.
  - rewrite (attempt_unknown _ _ E). reflexivity.
  - rewrite (attempt_raised _ _ _ E). reflexivity.
Qed.

Lemma safe_decode_on_binary data primary fbs :
  guess_content_type data default_sample_size = "binary" ->
  safe_decode codec data primary fbs =
  Run [] (inl (ValueError (Py.hex (Py.slice_to data 20)))).
Proof. intros Hbinary. unfold safe_decode. rewrite Hbinary. reflexivity. Qed.

Lemma safe_decode_scan data primary fbs :
  guess_content_type data default_sample_size = "text" ->
  exists r,
    scan codec data (primary :: effective_fallbacks fbs)
         (attempts (safe_decode codec data primary fbs)) r /\
    result (safe_decode codec data primary fbs) = finish primary fbs data r.
Proof.
  intros Htext. rewrite (safe_decode_on_text _ _ _ Htext).
  destruct (codec primary data) as [text| | |what] eqn:E.
  - exists (inr (Some (text, primary))). split; [|reflexivity].
    apply (scan_hit codec data [] primary _ text); [constructor | exact E].
  - eexists. split; [|reflexivity]. cbn.
    apply scan_cons; [exact E | apply try_fallbacks_scan].
  - exists (inl (LookupError primary)). split; [|reflexivity].
    apply (scan_unknown codec data [] primary); [constructor | exact E].
  - exists (inl (Raised what)). split; [|reflexivity].
    apply (scan_raised codec data [] primary _ what); [constructor | exact E].
Qed.

End RunFacts.

Lemma effective_fallbacks_supplied e l :
  effective_fallbacks (Some (e :: l)) = e :: l.
Proof. reflexivity. Qed.

Lemma effective_fallbacks_defaulted fbs :
  py_not fbs = true -> effective_fallbacks fbs = default_fallbacks.
Proof. intros H. unfold effective_fallbacks. rewrite H. reflexivity. Qed.

Lemma effective_fallbacks_app pre enc post :
  effective_fallbacks (Some (pre ++ enc :: post)) = pre ++ enc :: post.
Proof. destruct pre; reflexivity. Qed.

(** ** Order of the attempts *)

(** C1: on a byte sequence classified as text, [safe_decode] tries the
    primary encoding first and returns [(text, primary)] when it decodes;
    when the primary raises a decoding error, it tries the fallbacks in list
    order and returns [(text, enc)] for the first one that decodes: every
    fallback before [enc] was tried and failed, [enc] is the last call made,
    and nothing after it in the list is tried. This holds for a supplied
    list and for the default list. *)
Theorem safe_decode_first_success codec data primary
  (Htext : guess_content_type data default_sample_size = "text") :
  (forall fbs text,
      codec primary data = Decoded text ->
      safe_decode codec data primary fbs = Run [primary] (inr (text, primary)))
  /\
  (forall pre enc post text,
      codec primary data = Undecodable ->
      Forall (fun e => codec e data = Undecodable) pre ->
      codec enc data = Decoded text ->
      safe_decode codec data primary (Some (pre ++ enc :: post)) =
      Run (primary :: pre ++ [enc]) (inr (text, enc)))
  /\
  (forall fbs pre enc post text,
      py_not fbs = true ->
      default_fallbacks = pre ++ enc :: post ->
      codec primary data = Undecodable ->
      Forall (fun e => codec e data = Undecodable) pre ->
      codec enc data = Decoded text ->
      safe_decode codec data primary fbs =
      Run (primary :: pre ++ [enc]) (inr (text, enc))).
Proof.
  assert (Hgen : forall fbs pre enc post text,
             effective_fallbacks fbs = pre ++ enc :: post ->
             codec primary data = Undecodable ->
             Forall (fun e => codec e data = Undecodable) pre ->
             codec enc data = Decoded text ->
             safe_decode codec data primary fbs =
             Run (primary :: pre ++ [enc]) (inr (text, enc))).
  { intros fbs pre enc post text Heff Hp Hpre Henc.
    rewrite (safe_decode_on_text codec _ _ _ Htext), Hp, Heff.
    rewrite (try_fallbacks_hit codec _ _ _ post _ Hpre Henc). reflexivity. }
  split; [|split].
  - intros fbs text Hp. rewrite (safe_decode_on_text codec _ _ _ Htext), Hp. reflexivity.
  - intros pre enc post text.
    apply (Hgen _ pre enc post text (effective_fallbacks_app pre enc post)).
  - intros fbs pre enc post text Hnot Hdef. apply (Hgen fbs pre enc post text).
    rewrite (effective_fallbacks_defaulted _ Hnot). exact Hdef.
Qed.

Lemma safe_decode_first_success_witness :
  safe_decode Codecs.registry [x63; x61; x66; xe9] "utf-8" (Some ["latin1"]) =
  Run ["utf-8"; "latin1"] (inr ([99; 97; 102; 233], "latin1")).
Proof.
  apply (proj1 (proj2 (safe_decode_first_success
                         Codecs.registry [x63; x61; x66; xe9] "utf-8" eq_refl))
               [] "latin1" [] [99; 97; 102; 233]).
  - reflexivity.
  - constructor.
  - reflexivity.
Defined.

(** ** Exhausting the candidates *)

(** C2, as stated, fails for an explicitly supplied empty list: the byte
    0xff is text, is not UTF-8, and no listed fallback decodes it because
    none is listed; yet the run does not end in [UnicodeError] with
    [["utf-8"]]: the empty list is falsy, the defaults are tried and
    [latin1] decodes the byte. *)
Lemma safe_decode_empty_list_not_exhausted :
  guess_content_type [xff] default_sample_size = "text" /\
  Codecs.registry "utf-8" [xff] = Undecodable /\
  Forall (fun e => Codecs.registry e [xff] = Undecodable) [] /\
  safe_decode Codecs.registry [xff] "utf-8" (Some []) =
    Run ["utf-8"; "latin1"] (inr ([255], "latin1")) /\
  result (safe_decode Codecs.registry [xff] "utf-8" (Some [])) <>
    inl (UnicodeError ("utf-8" :: []) (Py.hex (Py.slice_to [xff] 100))).
Proof.
  repeat split; try reflexivity.
  - constructor.
  - discriminate.
Qed.

(** C2, amended: on a byte sequence classified as text, with a non-empty
    supplied fallback list, when the primary and every listed fallback raise
    a decoding error, [safe_decode] has tried exactly the primary and then
    the fallbacks in order, and raises [UnicodeError] carrying
    [[primary] + fallbacks] and the hex of the first 100 bytes. With no list
    or an empty list the run is the run with the defaults
    [latin1, cp1252, ascii] supplied. *)
Theorem safe_decode_exhausted codec data primary
  (Htext : guess_content_type data default_sample_size = "text") :
  (forall e l,
      codec primary data = Undecodable ->
      Forall (fun enc => codec enc data = Undecodable) (e :: l) ->
      safe_decode codec data primary (Some (e :: l)) =
      Run (primary :: e :: l)
          (inl (UnicodeError (primary :: e :: l) (Py.hex (Py.slice_to data 100)))))
  /\
  (forall fbs,
      py_not fbs = true ->
      safe_decode codec data primary fbs =
      safe_decode codec data primary (Some ["latin1"; "cp1252"; "ascii"])).
Proof.
  split.
  - intros e l Hp Hall.
    rewrite (safe_decode_on_text codec _ _ _ Htext), Hp.
    rewrite effective_fallbacks_supplied.
    rewrite (try_fallbacks_exhausted codec _ _ Hall). reflexivity.
  - intros fbs Hnot. unfold safe_decode.
    rewrite (effective_fallbacks_defaulted _ Hnot). reflexivity.
Qed.

Lemma safe_decode_exhausted_witness :
  safe_decode Codecs.registry [x81] "utf-8" (Some ["cp1252"; "ascii"]) =
  Run ["utf-8"; "cp1252"; "ascii"]
      (inl (UnicodeError ["utf-8"; "cp1252"; "ascii"] "81")).
Proof.
  apply (proj1 (safe_decode_exhausted Codecs.registry [x81] "utf-8" eq_refl)
               "cp1252" ["ascii"]).
  - reflexivity.
  - repeat constructor.
Defined.

(** ** Binary content *)

(** C3: when the classifier says binary, [safe_decode] raises the
    [ValueError] carrying the hex of the first 20 bytes, and the log of
    codec calls is empty: neither the primary nor a fallback was tried. *)
Theorem safe_decode_binary codec data primary fbs
  (Hbinary : guess_content_type data default_sample_size = "binary") :
  safe_decode codec data primary fbs =
  Run [] (inl (ValueError (Py.hex (Py.slice_to data 20)))).
Proof. exact (safe_decode_on_binary codec data primary fbs Hbinary). Qed.

Lemma safe_decode_binary_witness :
  safe_decode Codecs.registry [x25; x50; x44; x46; x2d; x31; x2e; x34] "utf-8" None =
  Run [] (inl (ValueError "255044462d312e34")).
Proof.
  apply (safe_decode_binary Codecs.registry
           [x25; x50; x44; x46; x2d; x31; x2e; x34] "utf-8" None).
  reflexivity.
Defined.

(** ** The empty byte sequence *)

Lemma slice_to_nil {A} stop : Py.slice_to (@nil A) stop = [].
Proof. unfold Py.slice_to. destruct (stop <? 0); apply firstn_nil. Qed.

(** C6: the empty byte sequence is text, for the default and for every
    other sample size, and decoding it with primary [utf-8] and the empty
    fallback list returns the empty string and ["utf-8"] after the one
    call of the UTF-8 codec, for a registry whose UTF-8 codec maps no bytes
    to no characters. *)
Theorem empty_bytes codec
  (Hutf8 : codec "utf-8" [] = Decoded []) :
  guess_content_type [] default_sample_size = "text" /\
  (forall sample_size, guess_content_type [] sample_size = "text") /\
  safe_decode codec [] "utf-8" (Some []) = Run ["utf-8"] (inr ([], "utf-8")).
Proof.
  split; [reflexivity|]. split.
  - intros sample_size. unfold guess_content_type.
    rewrite slice_to_nil. reflexivity.
  - rewrite (safe_decode_on_text codec [] "utf-8" (Some []) eq_refl), Hutf8.
    reflexivity.
Qed.

Lemma empty_bytes_witness :
  guess_content_type [] default_sample_size = "text" /\
  (forall sample_size, guess_content_type [] sample_size = "text") /\
  safe_decode Codecs.registry [] "utf-8" (Some []) = Run ["utf-8"] (inr ([], "utf-8")).
Proof. apply (empty_bytes Codecs.registry). reflexivity. Defined.

(** ** The default fallbacks *)

(** C7, as stated, fails for a primary encoding that is not registered:
    [b'abc'] is classified text, [latin1] decodes every byte sequence and
    the list is defaulted, yet [safe_decode(b'abc', 'no-such-codec')]
    returns no pair: the one call made raises [LookupError], which
    [except UnicodeError] does not catch, and [latin1] is never tried. *)
Lemma safe_decode_defaults_unregistered_primary :
  guess_content_type [x61; x62; x63] default_sample_size = "text" /\
  (forall d, exists text, Codecs.registry "latin1" d = Decoded text) /\
  py_not None = true /\
  safe_decode Codecs.registry [x61; x62; x63] "no-such-codec" None =
    Run ["no-such-codec"] (inl (LookupError "no-such-codec")) /\
  ~ (exists text enc,
        result (safe_decode Codecs.registry [x61; x62; x63] "no-such-codec" None)
        = inr (text, enc)).
Proof.
  split; [reflexivity|]. split.
  - intros [|b d]; eexists; reflexivity.
  - split; [reflexivity|]. split; [reflexivity|].
    intros (text & enc & H). discriminate H.
Qed.

(** C7, amended: when the registry's [latin1] decodes every byte sequence
    and the fallback list is defaulted ([None] or empty), decoding a byte
    sequence classified as text never ends in the decode-exhausted
    [UnicodeError], whatever the primary encoding. When the call for the
    primary encoding decodes, the run is that one call and returns
    [(text, primary)]; when it raises a decoding error, the run is that
    call and the call for [latin1], and returns what [latin1] decodes the
    data to, with ["latin1"]: in both cases a pair whose text is the
    decoding of the data under the encoding named. *)
Theorem safe_decode_defaults_total codec data primary fbs
  (Hlatin1 : forall d, exists text, codec "latin1" d = Decoded text)
  (Hdefault : py_not fbs = true)
  (Htext : guess_content_type data default_sample_size = "text") :
  (forall tried first_bytes,
      result (safe_decode codec data primary fbs) <> inl (UnicodeError tried first_bytes))
  /\
  (forall text,
      codec primary data = Decoded text ->
      safe_decode codec data primary fbs = Run [primary] (inr (text, primary)))
  /\
  (codec primary data = Undecodable ->
   exists text,
     codec "latin1" data = Decoded text /\
     safe_decode codec data primary fbs = Run [primary; "latin1"] (inr (text, "latin1")))
  /\
  ((exists text, codec primary data = Decoded text) \/ codec primary data = Undecodable ->
   exists text enc,
     result (safe_decode codec data primary fbs) = inr (text, enc) /\
     codec enc data = Decoded text).
Proof.
  rewrite (safe_decode_on_text codec _ _ _ Htext).
  rewrite (effective_fallbacks_defaulted _ Hdefault).
  destruct (Hlatin1 data) as [t Ht].
  pose proof (try_fallbacks_hit codec data [] "latin1" ["cp1252"; "ascii"] t
                (Forall_nil _) Ht) as Hhit.
  cbn [app] in Hhit. unfold default_fallbacks.
  destruct (codec primary data) as [text| | |what] eqn:E.
  - split; [intros ? ?; cbn; discriminate|].
    split; [intros text' [= <-]; reflexivity|].
    split; [discriminate|].
    intros _. exists text, primary. split; [reflexivity | exact E].
  - rewrite Hhit. cbn [attempts result finish].
    split; [intros ? ?; discriminate|].
    split; [discriminate|].
    split; [intros _; exists t; split; [exact Ht | reflexivity]|].
    intros _. exists t, "latin1". split; [reflexivity | exact Ht].
  - split; [intros ? ?; cbn; discriminate|].
    split; [discriminate|]. split; [discriminate|].
    intros [[text H] | H]; discriminate H.
  - split; [intros ? ?; cbn; discriminate|].
    split; [discriminate|]. split; [discriminate|].
    intros [[text H] | H]; discriminate H.
Qed.

Lemma safe_decode_defaults_total_witness :
  exists text,
    Codecs.registry "latin1" [xff] = Decoded text /\
    safe_decode Codecs.registry [xff] "utf-8" None =
    Run ["utf-8"; "latin1"] (inr (text, "latin1")).
Proof.
  apply (proj1 (proj2 (proj2 (safe_decode_defaults_total
                                Codecs.registry [xff] "utf-8" None
                                (fun d => match d with
                                          | [] => ex_intro _ [] eq_refl
                                          | b :: d' =>
                                              ex_intro _ (map Py.ord (b :: d')) eq_refl
                                          end)
                                eq_refl eq_refl)))).
  reflexivity.
Defined.

(** ** Unregistered encodings *)

Lemma scan_unknown_attempted codec data encs log r enc :
  scan codec data encs log r ->
  In enc log ->
  codec enc data = UnknownEncoding ->
  r = inl (LookupError enc) /\
  exists before after,
    log = before ++ [enc] /\
    encs = before ++ enc :: after /\
    Forall (fun e => codec e data = Undecodable) before.
Proof.
  intros Hscan Hin Hunk.
  assert (Hnot : forall l, Forall (fun e => codec e data = Undecodable) l -> ~ In enc l).
  { intros l Hl Hinl. rewrite Forall_forall in Hl. specialize (Hl _ Hinl). congruence. }
  destruct Hscan as [encs Hall | pre enc' post text Hpre Henc' | pre enc' post Hpre Henc'
                     | pre enc' post what Hpre Henc'].
  - destruct (Hnot _ Hall Hin).
  - apply in_app_or in Hin. destruct Hin as [Hin | [-> | []]].
    + destruct (Hnot _ Hpre Hin).
    + congruence.
  - apply in_app_or in Hin. destruct Hin as [Hin | [-> | []]].
    + destruct (Hnot _ Hpre Hin).
    + split; [reflexivity|]. exists pre, post. auto.
  - apply in_app_or in Hin. destruct Hin as [Hin | [-> | []]].
    + destruct (Hnot _ Hpre Hin).
    + congruence.
Qed.

(** C8: when an encoding that [safe_decode] attempts -- the primary, or a
    fallback the loop reaches -- is absent from the registry, the run ends
    in that [LookupError], not in [ValueError] or [UnicodeError]; the
    unregistered encoding is the last call in the log, everything tried
    before it raised a decoding error, and the encodings after it in
    [[primary] + fallbacks] are not tried. *)
Theorem safe_decode_lookup_error codec data primary fbs enc
  (Hattempted : In enc (attempts (safe_decode codec data primary fbs)))
  (Hunknown : codec enc data = UnknownEncoding) :
  result (safe_decode codec data primary fbs) = inl (LookupError enc) /\
  exists before after,
    attempts (safe_decode codec data primary fbs) = before ++ [enc] /\
    primary :: effective_fallbacks fbs = before ++ enc :: after /\
    Forall (fun e => codec e data = Undecodable) before.
Proof.
  destruct (guess_content_type_cases data default_sample_size) as [Hb | Ht].
  - rewrite (safe_decode_on_binary codec data primary fbs Hb) in Hattempted.
    destruct Hattempted.
  - destruct (safe_decode_scan codec data primary fbs Ht) as (r & Hscan & Hres).
    destruct (scan_unknown_attempted _ _ _ _ _ _ Hscan Hattempted Hunknown)
      as (-> & Hshape).
    rewrite Hres. split; [reflexivity | exact Hshape].
Qed.

Lemma safe_decode_lookup_error_witness :
  result (safe_decode Codecs.registry [x81] "utf-8"
            (Some ["cp1252"; "no-such-codec"; "latin1"]))
  = inl (LookupError "no-such-codec") /\
  exists before after,
    attempts (safe_decode Codecs.registry [x81] "utf-8"
                (Some ["cp1252"; "no-such-codec"; "latin1"]))
    = before ++ ["no-such-codec"] /\
    "utf-8" :: effective_fallbacks (Some ["cp1252"; "no-such-codec"; "latin1"])
    = before ++ "no-such-codec" :: after /\
    Forall (fun e => Codecs.registry e [x81] = Undecodable) before.
Proof.
  apply (safe_decode_lookup_error Codecs.registry [x81] "utf-8"
           (Some ["cp1252"; "no-such-codec"; "latin1"]) "no-such-codec").
  - cbn. right. right. left. reflexivity.
  - reflexivity.
Defined.

(** * Further properties of the classifier *)

(** ** Samples without control bytes *)

Lemma binary_round_aux_sign m e l :
  let r := binary_round_aux 53 1024 false m e l in
  r = S754_zero false \/ (exists m' e', r = S754_finite false m' e') \/
  r = S754_infinity false \/ r = S754_nan.
Proof.
  cbn zeta. unfold binary_round_aux.
  destruct (shr_fexp 53 1024 m e l) as [mrs' e'].
  destruct (shr_fexp 53 1024 _ e' loc_Exact) as [mrs'' e''].
  destruct (shr_m mrs'') as [|p|p]; [now left | | now (right; right; right)].
  destruct (e'' <=? 1024 - 53); [right; left; eauto | right; right; now left].
Qed.

(** No count is above the threshold unless it is positive: the product is
    never negative, whatever the length. *)
Lemma threshold_nonneg n c :
  0 <= n -> c <= 0 ->
  F64.int_gt c (F64.mul (F64.of_int n) F64.lit_0_3) = false.
Proof.
  intros Hn Hc.
  assert (Hshape : forall f,
             f = S754_zero false \/ (exists m' e', f = S754_finite false m' e') \/
             f = S754_infinity false \/ f = S754_nan ->
             F64.int_gt c f = false).
  { intros f [-> | [(m' & e' & ->) | [-> | ->]]]; cbn [F64.int_gt cond_Zopp];
      try reflexivity.
    - destruct (Z.ltb_spec 0 c); [lia | reflexivity].
    - destruct (Z.leb_spec 0 e').
      + assert (0 <= 2 ^ e') by (apply Z.pow_nonneg; lia).
        destruct (Z.ltb_spec (Zpos m' * 2 ^ e') c); [nia | reflexivity].
      + assert (0 <= 2 ^ (- e')) by (apply Z.pow_nonneg; lia).
        destruct (Z.ltb_spec (Zpos m') (c * 2 ^ (- e'))); [nia | reflexivity]. }
  apply Hshape.
  assert (Hof : F64.of_int n = S754_zero false \/
                (exists m' e', F64.of_int n = S754_finite false m' e') \/
                F64.of_int n = S754_infinity false \/ F64.of_int n = S754_nan).
  { destruct n as [|p|p]; [now left | | lia].
    unfold F64.of_int, F64.prec, F64.emax, binary_normalize, binary_round.
    destruct (shl_align _ _ _) as [mz ez]. apply binary_round_aux_sign. }
  unfold F64.mul, F64.lit_0_3, F64.prec, F64.emax.
  destruct Hof as [-> | [(m' & e' & ->) | [-> | ->]]]; cbn [SFmul xorb].
  - now left.
  - apply binary_round_aux_sign.
  - right; right; now left.
  - now (right; right; right).
Qed.

Lemma uncounted_not_control b : uncounted b -> is_control b = false.
Proof.
  unfold uncounted, is_control. cbn [existsb]. intros H.
  destruct (Z.ltb_spec (Py.ord b) 32); [|reflexivity].
  destruct (Z.eqb_spec (Py.ord b) 9), (Z.eqb_spec (Py.ord b) 10),
    (Z.eqb_spec (Py.ord b) 13); cbn; try reflexivity; lia.
Qed.

Lemma filter_none {A} (f : A -> bool) l :
  Forall (fun x => f x = false) l -> filter f l = [].
Proof.
  induction 1 as [|x l Hx _ IH]; cbn [filter]; [reflexivity|].
  rewrite Hx. exact IH.
Qed.

Lemma startswith_split sample sig :
  Py.startswith sample sig = true -> exists rest, sample = sig ++ rest.
Proof.
  revert sample. induction sig as [|s sig IH]; intros sample H.
  - exists sample. reflexivity.
  - destruct sample as [|b sample]; cbn [Py.startswith] in H; [discriminate|].
    apply andb_true_iff in H. destruct H as [Hb Hrest].
    apply Strings.Byte.byte_dec_bl in Hb. subst b.
    destruct (IH _ Hrest) as [rest ->]. exists rest. reflexivity.
Qed.

Lemma startswith_uncounted sample sig :
  Forall uncounted sample -> Py.startswith sample sig = true -> Forall uncounted sig.
Proof.
  intros Hall Hstart. destruct (startswith_split _ _ Hstart) as [rest ->].
  apply Forall_app in Hall. exact (proj1 Hall).
Qed.

(** The verdict of a sample once its count of control bytes is known to be
    zero. *)
Lemma guess_content_type_no_control data sample_size :
  Forall uncounted (Py.slice_to data sample_size) ->
  guess_content_type data sample_size =
  if existsb (Py.startswith (Py.slice_to data sample_size)) binary_sigs
  then "binary" else "text".
Proof.
  intros Hall. unfold guess_content_type.
  destruct (existsb _ binary_sigs); [reflexivity|].
  rewrite control_chars_count.
  rewrite filter_none
    by (eapply Forall_impl; [|exact Hall]; exact uncounted_not_control).
  rewrite threshold_nonneg; [reflexivity | unfold Py.len; lia | unfold Py.len; cbn; lia].
Qed.

(** X1: a sample with no counted control byte (every byte is 32 or more, or
    a tab, line feed or carriage return) is never binary by the ratio test,
    whatever its length: it is binary exactly when it starts with [%PDF-],
    [\x89PNG] or [\xff\xd8\xff], the three signatures free of control
    bytes. If all its bytes are printable ASCII (32..126), it is binary
    exactly when it starts with [%PDF-]. *)
Theorem guess_content_type_clean_sample data sample_size
  (Hclean : Forall uncounted (Py.slice_to data sample_size)) :
  guess_content_type data sample_size =
    (if existsb (Py.startswith (Py.slice_to data sample_size))
          [ [x25; x50; x44; x46; x2d]; [x89; x50; x4e; x47]; [xff; xd8; xff] ]
     then "binary" else "text")
  /\
  (Forall (fun b => 32 <= Py.ord b <= 126) (Py.slice_to data sample_size) ->
   guess_content_type data sample_size =
     if Py.startswith (Py.slice_to data sample_size) [x25; x50; x44; x46; x2d]
     then "binary" else "text").
Proof.
  rewrite (guess_content_type_no_control _ _ Hclean).
  set (sample := Py.slice_to data sample_size) in *.
  assert (Hzip : Py.startswith sample [x50; x4b; x03; x04] = false).
  { apply not_true_is_false. intros H.
    pose proof (startswith_uncounted _ _ Hclean H) as Hsig.
    inversion Hsig as [|? ? _ H1]; subst. inversion H1 as [|? ? _ H2]; subst.
    inversion H2 as [|? ? H3 _]; subst. unfold uncounted in H3. cbn in H3. lia. }
  assert (Hgzip : Py.startswith sample [x1f; x8b] = false).
  { apply not_true_is_false. intros H.
    pose proof (startswith_uncounted _ _ Hclean H) as Hsig.
    inversion Hsig as [|? ? H1 _]; subst. unfold uncounted in H1. cbn in H1. lia. }
  unfold binary_sigs. cbn [existsb]. rewrite Hzip, Hgzip.
  split.
  - rewrite !orb_false_r. cbn [orb]. reflexivity.
  - intros Hascii.
    assert (Hhigh : forall sig b rest, sig = b :: rest -> 126 < Py.ord b ->
                      Py.startswith sample sig = false).
    { intros sig b rest -> Hb. apply not_true_is_false. intros H.
      destruct (startswith_split _ _ H) as [tl Hs]. rewrite Hs in Hascii.
      inversion Hascii as [|? ? H1 _]; subst. lia. }
    rewrite (Hhigh [x89; x50; x4e; x47] x89 _ eq_refl) by (cbn; lia).
    rewrite (Hhigh [xff; xd8; xff] xff _ eq_refl) by (cbn; lia).
    rewrite !orb_false_r. reflexivity.
Qed.

Lemma guess_content_type_clean_sample_witness :
  guess_content_type [x48; x65; x6c; x6c; x6f; x2c; x20; x77; x6f; x72; x6c; x64; x21; x0a] 1024
  = "text".
Proof.
  apply (proj1 (guess_content_type_clean_sample
                  [x48; x65; x6c; x6c; x6f; x2c; x20; x77; x6f; x72; x6c; x64; x21; x0a]
                  1024 ltac:(repeat constructor; unfold uncounted; cbn; lia))).
Defined.

(** ** Empty samples *)

Lemma slice_to_empty {A} (data : list A) stop :
  stop = 0 \/ stop <= - Py.len data -> Py.slice_to data stop = [].
Proof.
  unfold Py.slice_to, Py.len. intros [-> | H].
  - reflexivity.
  - destruct (Z.ltb_spec stop 0).
    + replace (Z.to_nat (Z.of_nat (List.length data) + stop)) with 0%nat by lia.
      reflexivity.
    + assert (List.length data = 0%nat) as Hnil by lia.
      apply length_zero_iff_nil in Hnil. subst data. apply firstn_nil.
Qed.

(** X2: when the sample is empty the verdict is text, whatever the data:
    with [sample_size = 0], or a negative [sample_size] that drops every
    byte, even a PDF is text. *)
Theorem guess_content_type_empty_sample data sample_size
  (Hsize : sample_size = 0 \/ sample_size <= - Py.len data) :
  guess_content_type data sample_size = "text".
Proof.
  unfold guess_content_type. rewrite (slice_to_empty _ _ Hsize). reflexivity.
Qed.

Lemma guess_content_type_empty_sample_witness :
  guess_content_type [x25; x50; x44; x46; x2d; x31; x2e; x34] 0 = "text" /\
  guess_content_type [x25; x50; x44; x46; x2d; x31; x2e; x34] 1024 = "binary".
Proof.
  split; [|reflexivity].
  apply (guess_content_type_empty_sample [x25; x50; x44; x46; x2d; x31; x2e; x34] 0).
  left. reflexivity.
Defined.

(** ** More than 30% control bytes *)

Lemma guess_content_type_over_threshold data sample_size :
  Py.len (Py.slice_to data sample_size) < 7505999378950833 ->
  3 * Py.len (Py.slice_to data sample_size) <
    10 * Py.len (filter is_control (Py.slice_to data sample_size)) ->
  guess_content_type data sample_size = "binary".
Proof.
  intros Hshort Hmany. unfold guess_content_type.
  destruct (existsb _ binary_sigs); [reflexivity|].
  rewrite control_chars_count, threshold_exact by (unfold Py.len in *; lia).
  destruct (Z.ltb_spec (3 * Py.len (Py.slice_to data sample_size))
              (10 * Py.len (filter is_control (Py.slice_to data sample_size))));
    [reflexivity | lia].
Qed.

(** X3: a sample (shorter than 7505999378950833 bytes) in which the counted
    control bytes are more than 30% of the bytes is binary whether or not it
    starts with a signature; in particular with the default sample size, for
    data of any length. *)
Theorem guess_content_type_many_controls data sample_size
  (Hshort : Py.len (Py.slice_to data sample_size) < 7505999378950833)
  (Hmany : 3 * Py.len (Py.slice_to data sample_size) <
           10 * Py.len (filter is_control (Py.slice_to data sample_size))) :
  guess_content_type data sample_size = "binary".
Proof. exact (guess_content_type_over_threshold data sample_size Hshort Hmany). Qed.

Lemma guess_content_type_many_controls_witness :
  guess_content_type [x00; x01; x41; x42; x43] 1024 = "binary".
Proof.
  apply (guess_content_type_many_controls [x00; x01; x41; x42; x43] 1024).
  - vm_compute. reflexivity.
  - vm_compute. reflexivity.
Defined.

(** ** UTF-16 text *)

Lemma utf16le_firstn chars k :
  firstn (2 * k) (utf16le chars) = utf16le (firstn k chars).
Proof.
  revert chars. induction k as [|k IH]; intros chars.
  - reflexivity.
  - destruct chars as [|c chars]; [reflexivity|].
    replace (2 * S k)%nat with (S (S (2 * k))) by lia.
    cbn [utf16le flat_map app firstn]. f_equal. f_equal. apply IH.
Qed.

Lemma utf16le_length chars : Py.len (utf16le chars) = 2 * Py.len chars.
Proof.
  unfold Py.len. induction chars as [|c chars IH]; [reflexivity|].
  cbn [utf16le flat_map app List.length] in *. fold (utf16le chars). lia.
Qed.

Lemma utf16le_controls chars :
  Py.len chars <= Py.len (filter is_control (utf16le chars)).
Proof.
  unfold Py.len. induction chars as [|c chars IH]; [reflexivity|].
  cbn [utf16le flat_map app filter]. fold (utf16le chars).
  change (is_control x00) with true. cbv iota.
  destruct (is_control c); cbn [List.length] in *; lia.
Qed.

(** X4: UTF-16-LE text of characters below U+0100 is classified binary,
    because every second byte is NUL: without a byte order mark from one
    character on, after the mark [\xff\xfe] from two characters on. [safe_decode]
    therefore raises the binary-content [ValueError] on it without calling
    a codec, whatever the encodings it is given, [utf-16] included. *)
Theorem utf16_is_binary chars :
  (chars <> [] ->
   guess_content_type (utf16le chars) default_sample_size = "binary" /\
   forall codec primary fbs,
     safe_decode codec (utf16le chars) primary fbs =
     Run [] (inl (ValueError (Py.hex (Py.slice_to (utf16le chars) 20)))))
  /\
  (2 <= Py.len chars ->
   guess_content_type ([xff; xfe] ++ utf16le chars) default_sample_size = "binary" /\
   forall codec primary fbs,
     safe_decode codec ([xff; xfe] ++ utf16le chars) primary fbs =
     Run [] (inl (ValueError (Py.hex (Py.slice_to ([xff; xfe] ++ utf16le chars) 20))))).
Proof.
  assert (Hbare : chars <> [] ->
            guess_content_type (utf16le chars) default_sample_size = "binary").
  { intros Hne. apply guess_content_type_over_threshold.
    - pose proof (slice_to_len_le (utf16le chars) default_sample_size ltac:(cbv; discriminate)).
      unfold default_sample_size in *. lia.
    - unfold default_sample_size. rewrite slice_to_nonneg by lia.
      change (Z.to_nat 1024) with (2 * 512)%nat. rewrite utf16le_firstn.
      pose proof (utf16le_controls (firstn 512 chars)).
      rewrite utf16le_length.
      assert (0 < Py.len (firstn 512 chars)).
      { unfold Py.len. destruct chars; [congruence | cbn; lia]. }
      lia. }
  assert (Hbom : 2 <= Py.len chars ->
            guess_content_type ([xff; xfe] ++ utf16le chars) default_sample_size = "binary").
  { intros Hlen. apply guess_content_type_over_threshold.
    - pose proof (slice_to_len_le ([xff; xfe] ++ utf16le chars) default_sample_size
                    ltac:(cbv; discriminate)).
      unfold default_sample_size in *. lia.
    - unfold default_sample_size. rewrite slice_to_nonneg by lia.
      change (Z.to_nat 1024) with (S (S (2 * 511))).
      cbn [app firstn]. rewrite utf16le_firstn.
      cbn [filter]. change (is_control xff) with false. change (is_control xfe) with false.
      cbv iota.
      pose proof (utf16le_controls (firstn 511 chars)).
      pose proof (utf16le_length (firstn 511 chars)).
      assert (2 <= Py.len (firstn 511 chars)).
      { unfold Py.len in *. rewrite length_firstn. lia. }
      unfold Py.len in *. cbn [List.length]. lia. }
  split; intros H; (split; [auto|]); intros codec primary fbs;
    apply safe_decode_on_binary; auto.
Qed.

Lemma utf16_is_binary_witness :
  guess_content_type (utf16le [x61; x2c; x62]) default_sample_size = "binary" /\
  forall codec primary fbs,
    safe_decode codec (utf16le [x61; x2c; x62]) primary fbs =
    Run [] (inl (ValueError (Py.hex (Py.slice_to (utf16le [x61; x2c; x62]) 20)))).
Proof. apply (proj1 (utf16_is_binary [x61; x2c; x62])). discriminate. Defined.

(** * Further properties of the decoder *)

(** ** Every way a run can end *)

Section Endings.

Variable codec : string -> list byte -> codec_result.

(** A run is the rejection of binary content, or a scan of
    [[primary] + fallbacks] on text. *)
Lemma safe_decode_endings data primary fbs :
  (guess_content_type data default_sample_size = "binary" /\
   safe_decode codec data primary fbs =
   Run [] (inl (ValueError (Py.hex (Py.slice_to data 20)))))
  \/
  (guess_content_type data default_sample_size = "text" /\
   exists r,
     scan codec data (primary :: effective_fallbacks fbs)
          (attempts (safe_decode codec data primary fbs)) r /\
     result (safe_decode codec data primary fbs) = finish primary fbs data r).
Proof.
  destruct (guess_content_type_cases data default_sample_size) as [Hb | Ht].
  - left. split; [exact Hb | exact (safe_decode_on_binary codec _ _ _ Hb)].
  - right. split; [exact Ht | exact (safe_decode_scan codec _ _ _ Ht)].
Qed.

Lemma scan_prefix data encs log r :
  scan codec data encs log r -> exists rest, encs = log ++ rest.
Proof.
  intros [encs' _ | pre enc post text _ _ | pre enc post _ _ | pre enc post what _ _].
  - exists []. symmetry. apply app_nil_r.
  - exists post. rewrite <- app_assoc. reflexivity.
  - exists post. rewrite <- app_assoc. reflexivity.
  - exists post. rewrite <- app_assoc. reflexivity.
Qed.

Lemma scan_nonempty data enc encs log r :
  scan codec data (enc :: encs) log r -> log <> [].
Proof.
  intros H.
  inversion H as [encs' _ | pre enc' post text _ _ | pre enc' post _ _
                  | pre enc' post what _ _];
    subst; try discriminate; destruct pre; discriminate.
Qed.

Lemma scan_head data enc encs log r :
  scan codec data (enc :: encs) log r -> exists later, log = enc :: later.
Proof.
  intros H. pose proof (scan_nonempty _ _ _ _ _ H) as Hne.
  destruct (scan_prefix _ _ _ _ H) as [rest Hrest].
  destruct log as [|e later]; [congruence|].
  injection Hrest as <- _. exists later. reflexivity.
Qed.

End Endings.

(** X5: a returned pair is genuine: when [safe_decode] returns
    [(text, enc)], the data was classified text, [enc] is the primary or
    one of the fallbacks in force, [text] is what that codec decodes the
    whole data to, [enc] is the last codec called and every codec called
    before it raised a decoding error. *)
Theorem safe_decode_pair_sound codec data primary fbs text enc
  (Hpair : result (safe_decode codec data primary fbs) = inr (text, enc)) :
  guess_content_type data default_sample_size = "text" /\
  codec enc data = Decoded text /\
  In enc (primary :: effective_fallbacks fbs) /\
  exists before,
    attempts (safe_decode codec data primary fbs) = before ++ [enc] /\
    Forall (fun e => codec e data = Undecodable) before.
Proof.
  destruct (safe_decode_endings codec data primary fbs)
    as [[_ Hrun] | [Htext (r & Hscan & Hres)]].
  - rewrite Hrun in Hpair. discriminate.
  - split; [exact Htext|]. rewrite Hres in Hpair.
    destruct Hscan as [encs Hall | pre e post t Hpre He | pre e post Hpre He
                       | pre e post what Hpre He];
      cbn in Hpair; try discriminate.
    injection Hpair as -> ->.
    split; [exact He|]. split; [apply in_elt|].
    exists pre. split; [reflexivity | exact Hpre].
Qed.

Lemma safe_decode_pair_sound_witness :
  Codecs.registry "latin1" [x63; x61; x66; xe9] = Decoded [99; 97; 102; 233] /\
  In "latin1" ("utf-8" :: effective_fallbacks (Some ["ascii"; "latin1"])).
Proof.
  pose proof (safe_decode_pair_sound Codecs.registry [x63; x61; x66; xe9] "utf-8"
                (Some ["ascii"; "latin1"]) [99; 97; 102; 233] "latin1" eq_refl) as H.
  split; [exact (proj1 (proj2 H)) | exact (proj1 (proj2 (proj2 H)))].
Defined.

(** X6: the exhausted [UnicodeError] is raised only when everything really
    failed: the data was classified text, the error lists exactly
    [[primary] + fallbacks] in force, each of them was called, in that
    order, and raised a decoding error, and the preview is the hex of the
    first 100 bytes. *)
Theorem safe_decode_exhausted_only_if codec data primary fbs tried first_bytes
  (Hraised : result (safe_decode codec data primary fbs)
             = inl (UnicodeError tried first_bytes)) :
  guess_content_type data default_sample_size = "text" /\
  tried = primary :: effective_fallbacks fbs /\
  attempts (safe_decode codec data primary fbs) = tried /\
  Forall (fun e => codec e data = Undecodable) tried /\
  first_bytes = Py.hex (Py.slice_to data 100).
Proof.
  destruct (safe_decode_endings codec data primary fbs)
    as [[_ Hrun] | [Htext (r & Hscan & Hres)]].
  - rewrite Hrun in Hraised. discriminate.
  - split; [exact Htext|]. rewrite Hres in Hraised.
    remember (primary :: effective_fallbacks fbs) as encs eqn:Eencs.
    destruct Hscan as [encs Hall | pre e post t Hpre He | pre e post Hpre He
                       | pre e post what Hpre He];
      cbn in Hraised; try discriminate.
    injection Hraised as <- <-. subst encs. auto.
Qed.

Lemma safe_decode_exhausted_only_if_witness :
  Forall (fun e => Codecs.registry e [x81] = Undecodable) ["utf-8"; "cp1252"; "ascii"].
Proof.
  exact (proj1 (proj2 (proj2 (proj2
           (safe_decode_exhausted_only_if Codecs.registry [x81] "utf-8"
              (Some ["cp1252"; "ascii"]) ["utf-8"; "cp1252"; "ascii"] "81" eq_refl))))).
Defined.

(** X7: which exceptions leave [safe_decode], and what each one tells.
    On data classified binary it is the [ValueError] of line 129, raised
    before any codec call. On data classified text it is either the
    [UnicodeError] of line 148, after every encoding of
    [[primary] + fallbacks] was called and raised a decoding error, or the
    exception of the last [bytes.decode] call, passed through unchanged:
    the [LookupError] of an unregistered encoding, or whatever else that
    call raised; every call before it raised a decoding error and nothing
    after it was tried. A codec's decoding error itself never leaves. An
    exception passed through can be a [ValueError], as for an encoding
    name with a NUL character: the class [ValueError] alone does not tell
    binary content. *)
Theorem safe_decode_exceptions codec data primary fbs e
  (Hraised : result (safe_decode codec data primary fbs) = inl e) :
  ((guess_content_type data default_sample_size = "binary" /\
    e = ValueError (Py.hex (Py.slice_to data 20)) /\
    attempts (safe_decode codec data primary fbs) = [])
   \/
   (guess_content_type data default_sample_size = "text" /\
    ((e = UnicodeError (primary :: effective_fallbacks fbs)
                       (Py.hex (Py.slice_to data 100)) /\
      attempts (safe_decode codec data primary fbs) = primary :: effective_fallbacks fbs /\
      Forall (fun enc => codec enc data = Undecodable)
             (primary :: effective_fallbacks fbs))
     \/
     (exists before enc after,
         primary :: effective_fallbacks fbs = before ++ enc :: after /\
         attempts (safe_decode codec data primary fbs) = before ++ [enc] /\
         Forall (fun enc' => codec enc' data = Undecodable) before /\
         ((e = LookupError enc /\ codec enc data = UnknownEncoding) \/
          (exists what, e = Raised what /\ codec enc data = OtherError what))))))
  /\
  (forall enc, e <> UnicodeDecodeError enc).
Proof.
  destruct (safe_decode_endings codec data primary fbs)
    as [[Hb Hrun] | [Htext (r & Hscan & Hres)]].
  - rewrite Hrun in Hraised |- *. cbn [result attempts] in *.
    injection Hraised as <-.
    split; [left; repeat split; assumption | discriminate].
  - rewrite Hres in Hraised.
    remember (primary :: effective_fallbacks fbs) as encs eqn:Eencs.
    destruct Hscan as [encs Hall | pre enc post t Hpre He | pre enc post Hpre He
                       | pre enc post what Hpre He];
      cbn [finish] in Hraised; try discriminate; injection Hraised as <-.
    + split; [|discriminate]. right. split; [exact Htext|]. left.
      rewrite <- Eencs. repeat split; assumption.
    + split; [|discriminate]. right. split; [exact Htext|]. right.
      exists pre, enc, post. repeat split; try assumption.
      left. split; [reflexivity | exact He].
    + split; [|discriminate]. right. split; [exact Htext|]. right.
      exists pre, enc, post. repeat split; try assumption.
      right. exists what. split; [reflexivity | exact He].
Qed.

Lemma safe_decode_exceptions_witness :
  guess_content_type [x61; x62; x63] default_sample_size = "text" /\
  result (safe_decode Codecs.registry [x61; x62; x63]
            (String "a" (String Ascii.zero "b")) None)
  = inl (Raised "ValueError: embedded null character") /\
  forall enc, Raised "ValueError: embedded null character" <> UnicodeDecodeError enc.
Proof.
  split; [reflexivity|]. split; [reflexivity|].
  exact (proj2 (safe_decode_exceptions Codecs.registry [x61; x62; x63]
                  (String "a" (String Ascii.zero "b")) None
                  (Raised "ValueError: embedded null character") eq_refl)).
Defined.

(** X8: the codec calls follow the list: the log of a run is always an
    initial segment of [[primary] + fallbacks] in force (nothing is
    skipped, reordered or repeated), and it is empty exactly when the data
    is classified binary. *)
Theorem safe_decode_attempts_prefix codec data primary fbs :
  (exists rest,
      primary :: effective_fallbacks fbs =
      attempts (safe_decode codec data primary fbs) ++ rest)
  /\
  (attempts (safe_decode codec data primary fbs) = [] <->
   guess_content_type data default_sample_size = "binary").
Proof.
  destruct (safe_decode_endings codec data primary fbs)
    as [[Hb Hrun] | [Htext (r & Hscan & Hres)]].
  - rewrite Hrun. cbn [attempts]. split; [eexists; reflexivity | tauto].
  - split; [exact (scan_prefix codec _ _ _ _ Hscan)|].
    split.
    + intros Hnil. destruct (scan_nonempty codec _ _ _ _ _ Hscan Hnil).
    + congruence.
Qed.

(** ** Fallbacks that are never tried *)

Lemma safe_decode_total_first_fallback codec data primary fbs first rest text :
  guess_content_type data default_sample_size = "text" ->
  effective_fallbacks fbs = first :: rest ->
  codec first data = Decoded text ->
  safe_decode codec data primary fbs =
  match codec primary data with
  | Decoded t => Run [primary] (inr (t, primary))
  | Undecodable => Run [primary; first] (inr (text, first))
  | UnknownEncoding => Run [primary] (inl (LookupError primary))
  | OtherError what => Run [primary] (inl (Raised what))
  end.
Proof.
  intros Htext Heff Hfirst. rewrite (safe_decode_on_text codec _ _ _ Htext), Heff.
  destruct (codec primary data); try reflexivity.
  pose proof (try_fallbacks_hit codec data [] first rest text (Forall_nil _) Hfirst) as Hhit.
  cbn [app] in Hhit. rewrite Hhit. reflexivity.
Qed.

(** X9: with the fallback list defaulted ([None] or empty) and a [latin1]
    codec that decodes the data, [cp1252] and [ascii] are never tried: the
    codec calls of a run are none (binary content), the primary alone, or
    the primary and then [latin1]; a returned pair names the primary or
    [latin1]. *)
Theorem safe_decode_defaults_stop_at_latin1 codec data primary fbs text
  (Hdefault : py_not fbs = true)
  (Hlatin1 : codec "latin1" data = Decoded text) :
  (attempts (safe_decode codec data primary fbs) = [] \/
   attempts (safe_decode codec data primary fbs) = [primary] \/
   attempts (safe_decode codec data primary fbs) = [primary; "latin1"])
  /\
  (forall t enc,
      result (safe_decode codec data primary fbs) = inr (t, enc) ->
      enc = primary \/ (enc = "latin1" /\ t = text)).
Proof.
  destruct (guess_content_type_cases data default_sample_size) as [Hb | Ht].
  - rewrite (safe_decode_on_binary codec _ _ _ Hb). cbn [attempts result].
    split; [now left | discriminate].
  - rewrite (safe_decode_total_first_fallback codec data primary fbs
               "latin1" ["cp1252"; "ascii"] text Ht
               (effective_fallbacks_defaulted _ Hdefault) Hlatin1).
    destruct (codec primary data); cbn [attempts result]; split;
      try (right; now left); try (right; now right); try discriminate.
    + intros t enc [= -> ->]. now left.
    + intros t enc [= <- <-]. right. split; reflexivity.
Qed.

Lemma safe_decode_defaults_stop_at_latin1_witness :
  attempts (safe_decode Codecs.registry [x81] "utf-8" None) = [] \/
  attempts (safe_decode Codecs.registry [x81] "utf-8" None) = ["utf-8"] \/
  attempts (safe_decode Codecs.registry [x81] "utf-8" None) = ["utf-8"; "latin1"].
Proof.
  exact (proj1 (safe_decode_defaults_stop_at_latin1 Codecs.registry [x81] "utf-8" None
                  [129] eq_refl eq_refl)).
Defined.

(** ** The hex previews *)

Lemma hex_length bs : String.length (Py.hex bs) = (2 * List.length bs)%nat.
Proof.
  induction bs as [|b bs IH]; cbn [Py.hex String.length List.length]; [reflexivity|].
  rewrite IH. lia.
Qed.

Lemma slice_to_length {A} (data : list A) stop :
  0 <= stop -> List.length (Py.slice_to data stop) = Nat.min (Z.to_nat stop) (List.length data).
Proof. intros H. rewrite slice_to_nonneg by assumption. apply length_firstn. Qed.

(** X10: the previews carried by the two errors are bounded whatever the
    size of the data: two hex digits for each of the first 20 bytes in the
    [ValueError] (at most 40 characters), for each of the first 100 bytes in
    the [UnicodeError] (at most 200). *)
Theorem safe_decode_preview_bounded codec data primary fbs :
  (forall first_bytes,
      result (safe_decode codec data primary fbs) = inl (ValueError first_bytes) ->
      String.length first_bytes = (2 * Nat.min 20 (List.length data))%nat /\
      (String.length first_bytes <= 40)%nat)
  /\
  (forall tried first_bytes,
      result (safe_decode codec data primary fbs) = inl (UnicodeError tried first_bytes) ->
      String.length first_bytes = (2 * Nat.min 100 (List.length data))%nat /\
      (String.length first_bytes <= 200)%nat).
Proof.
  destruct (safe_decode_endings codec data primary fbs)
    as [[Hb Hrun] | [Htext (r & Hscan & Hres)]].
  - rewrite Hrun. cbn [result]. split; [|discriminate].
    intros v [= <-]. rewrite hex_length, slice_to_length by lia.
    change (Z.to_nat 20) with 20%nat. lia.
  - rewrite Hres. split.
    + destruct Hscan; cbn [finish]; discriminate.
    + intros tried v.
      destruct Hscan; cbn [finish]; try discriminate.
      intros [= _ <-]. rewrite hex_length, slice_to_length by lia.
      change (Z.to_nat 100) with 100%nat. lia.
Qed.

(** ** What is screened and what is decoded *)

(** X11: only the first 1024 bytes are screened, but all of the data is
    decoded: after a 1024-byte prefix the remaining bytes, control bytes
    included, do not change the verdict; and when that prefix is text, the
    run on the whole data does not raise the binary-content [ValueError],
    starts with the call for the primary encoding, returns
    [(text, primary)] after that one call when the primary codec decodes
    the whole data, and any pair [(text, enc)] it returns holds what the
    codec [enc] decodes the whole data to, not the sample. *)
Theorem safe_decode_screens_prefix codec prefix rest primary fbs
  (Hlen : Py.len prefix = 1024) :
  guess_content_type (prefix ++ rest) default_sample_size =
  guess_content_type prefix default_sample_size
  /\
  (guess_content_type prefix default_sample_size = "text" ->
   (forall first_bytes,
       result (safe_decode codec (prefix ++ rest) primary fbs)
       <> inl (ValueError first_bytes)) /\
   (exists later, attempts (safe_decode codec (prefix ++ rest) primary fbs)
                  = primary :: later) /\
   (forall text,
       codec primary (prefix ++ rest) = Decoded text ->
       safe_decode codec (prefix ++ rest) primary fbs = Run [primary] (inr (text, primary))) /\
   (forall text enc,
       result (safe_decode codec (prefix ++ rest) primary fbs) = inr (text, enc) ->
       codec enc (prefix ++ rest) = Decoded text)).
Proof.
  assert (Hsame : guess_content_type (prefix ++ rest) default_sample_size =
                  guess_content_type prefix default_sample_size).
  { unfold guess_content_type, default_sample_size.
    rewrite (slice_to_app prefix rest 1024 Hlen), (slice_to_all prefix 1024) by lia.
    reflexivity. }
  split; [exact Hsame|].
  intros Htext. rewrite <- Hsame in Htext.
  destruct (safe_decode_endings codec (prefix ++ rest) primary fbs)
    as [[Hb _] | [_ (r & Hscan & Hres)]]; [congruence|].
  split; [|split; [|split]].
  - intros v. rewrite Hres. destruct Hscan; cbn [finish]; discriminate.
  - exact (scan_head codec _ _ _ _ _ Hscan).
  - intros text Hdec.
    rewrite (safe_decode_on_text codec _ _ _ Htext), Hdec. reflexivity.
  - intros text enc Hpair. rewrite Hres in Hpair.
    destruct Hscan as [encs Hall | pre e post t Hpre He | pre e post Hpre He
                       | pre e post what Hpre He];
      cbn [finish] in Hpair; try discriminate.
    injection Hpair as <- <-. exact He.
Qed.

Lemma safe_decode_screens_prefix_witness :
  guess_content_type (repeat x41 1024 ++ [x00; x00; x00; xff]) default_sample_size =
  guess_content_type (repeat x41 1024) default_sample_size /\
  Codecs.registry "utf-8" (repeat x41 1024) = Decoded (repeat 65 1024) /\
  Codecs.registry "latin1" (repeat x41 1024 ++ [x00; x00; x00; xff])
  = Decoded (repeat 65 1024 ++ [0; 0; 0; 255]).
Proof.
  pose proof (safe_decode_screens_prefix Codecs.registry (repeat x41 1024)
                [x00; x00; x00; xff] "utf-8" None eq_refl) as H.
  split; [exact (proj1 H)|]. split; [vm_compute; reflexivity|].
  apply (proj2 (proj2 (proj2 (proj2 H ltac:(vm_compute; reflexivity))))).
  vm_compute. reflexivity.
Defined.

(** * Properties of download_blob_to_text *)

Section DownloadFacts.

Context {sdk_error credential client : Type}.
Variable getenv : string -> option string.
Variable azure : Client.sdk sdk_error credential client.
Variable codec : string -> list byte -> codec_result.
Variable suffix_lower : string -> string.

Lemma download_blob_to_text_run container blob encoding fbs data :
  Client.download_blob_to_bytes getenv azure container blob = inr data ->
  exists fbs',
    fbs' = (if existsb (String.eqb (suffix_lower blob)) [".csv"; ".tsv"]
               && String.eqb encoding "utf-8"
            then Some csv_fallbacks else fbs) /\
    download_blob_to_text getenv azure codec suffix_lower container blob encoding fbs =
    inr (Run (attempts (safe_decode codec data encoding fbs'))
             match result (safe_decode codec data encoding fbs') with
             | inl e => inl e
             | inr found => inr (text_result_of encoding found)
             end).
Proof.
  intros Hdata. eexists. split; [reflexivity|].
  unfold download_blob_to_text. rewrite Hdata. cbv zeta. f_equal.
  unfold bind, text_result_of.
  destruct (safe_decode codec data encoding _) as [log [e | [decoded used]]];
    cbn [result attempts fst snd]; [reflexivity|].
  destruct (negb (String.eqb used encoding)); cbn; rewrite app_nil_r; reflexivity.
Qed.

Lemma safe_decode_pair_primary data primary fbs text enc :
  result (safe_decode codec data primary fbs) = inr (text, enc) ->
  guess_content_type data default_sample_size = "text" /\
  codec enc data = Decoded text /\
  ((enc = primary /\ attempts (safe_decode codec data primary fbs) = [primary]) \/
   (enc <> primary /\ codec primary data = Undecodable /\
    In enc (effective_fallbacks fbs))).
Proof.
  intros Hpair.
  destruct (guess_content_type_cases data default_sample_size) as [Hb | Ht].
  { rewrite (safe_decode_on_binary codec _ _ _ Hb) in Hpair. discriminate. }
  split; [exact Ht|].
  rewrite (safe_decode_on_text codec _ _ _ Ht) in Hpair |- *.
  destruct (codec primary data) as [t| | |what] eqn:E; cbn [result attempts] in *;
    try discriminate.
  - injection Hpair as -> ->. split; [exact E | left; split; reflexivity].
  - pose proof (try_fallbacks_scan codec data (effective_fallbacks fbs)) as Hs.
    destruct Hs as [encs Hall | pre e post t Hpre He | pre e post Hpre He
                    | pre e post what Hpre He];
      cbn [finish] in Hpair; try discriminate.
    injection Hpair as -> ->. split; [exact He|]. right.
    split; [congruence|]. split; [reflexivity | apply in_elt].
Qed.

End DownloadFacts.

(** X12: for a blob whose suffix is [.csv] or [.tsv] and primary encoding
    [utf-8], the caller's [fallback_encodings] is discarded: whatever list
    is passed, the data is decoded with the fallbacks
    [latin1, cp1252, utf-16, ascii], in that order. So text that only
    [utf-16] decodes comes back as [(text, "utf-16")] after the calls for
    [utf-8], [latin1], [cp1252] and [utf-16], and when all five raise a
    decoding error the [UnicodeError] lists these five. *)
Theorem download_blob_to_text_csv_override
  {sdk_error credential client : Type} getenv (azure : Client.sdk sdk_error credential client)
  codec suffix_lower container blob data fbs
  (Hcsv : suffix_lower blob = ".csv" \/ suffix_lower blob = ".tsv")
  (Hdata : Client.download_blob_to_bytes getenv azure container blob = inr data) :
  (let r := safe_decode codec data "utf-8" (Some ["latin1"; "cp1252"; "utf-16"; "ascii"]) in
   download_blob_to_text getenv azure codec suffix_lower container blob "utf-8" fbs =
   inr (Run (attempts r)
            match result r with
            | inl e => inl e
            | inr found => inr (text_result_of "utf-8" found)
            end))
  /\
  (forall text,
      guess_content_type data default_sample_size = "text" ->
      Forall (fun enc => codec enc data = Undecodable) ["utf-8"; "latin1"; "cp1252"] ->
      codec "utf-16" data = Decoded text ->
      download_blob_to_text getenv azure codec suffix_lower container blob "utf-8" fbs =
      inr (Run ["utf-8"; "latin1"; "cp1252"; "utf-16"]
               (inr (TextAndEncoding text "utf-16"))))
  /\
  (guess_content_type data default_sample_size = "text" ->
   Forall (fun enc => codec enc data = Undecodable)
          ["utf-8"; "latin1"; "cp1252"; "utf-16"; "ascii"] ->
   download_blob_to_text getenv azure codec suffix_lower container blob "utf-8" fbs =
   inr (Run ["utf-8"; "latin1"; "cp1252"; "utf-16"; "ascii"]
            (inl (UnicodeError ["utf-8"; "latin1"; "cp1252"; "utf-16"; "ascii"]
                               (Py.hex (Py.slice_to data 100)))))).
Proof.
  destruct (download_blob_to_text_run getenv azure codec suffix_lower
              container blob "utf-8" fbs data Hdata) as (fbs' & Hfbs & Heq).
  replace (existsb (String.eqb (suffix_lower blob)) [".csv"; ".tsv"]) with true in Hfbs
    by (destruct Hcsv as [-> | ->]; reflexivity).
  cbn in Hfbs. subst fbs'. unfold csv_fallbacks in Heq.
  split; [exact Heq|]. split.
  - intros text Htext Hfail Hdec. rewrite Heq.
    inversion Hfail as [|? ? Hutf8 Hrest]; subst.
    rewrite (safe_decode_on_text codec _ _ _ Htext), Hutf8.
    rewrite effective_fallbacks_supplied.
    pose proof (try_fallbacks_hit codec data ["latin1"; "cp1252"] "utf-16" ["ascii"] text
                  Hrest Hdec) as Hhit.
    cbn [app] in Hhit. rewrite Hhit. reflexivity.
  - intros Htext Hfail. rewrite Heq.
    inversion Hfail as [|? ? Hutf8 Hrest]; subst.
    rewrite (safe_decode_on_text codec _ _ _ Htext), Hutf8.
    rewrite effective_fallbacks_supplied.
    rewrite (try_fallbacks_exhausted codec data _ Hrest).
    reflexivity.
Qed.

Lemma download_blob_to_text_csv_override_witness :
  download_blob_to_text (Reference.environment (Some "https://account") None)
    (Reference.serving [x63; x61; x66; xe9]) Codecs.registry Reference.suffix_lower
    "container" "exports/2024/Report.CSV" "utf-8" (Some ["ascii"]) =
  inr (Run ["utf-8"; "latin1"] (inr (TextAndEncoding [99; 97; 102; 233] "latin1"))).
Proof.
  exact (proj1 (download_blob_to_text_csv_override
                  (Reference.environment (Some "https://account") None)
                  (Reference.serving [x63; x61; x66; xe9]) Codecs.registry
                  Reference.suffix_lower "container" "exports/2024/Report.CSV"
                  [x63; x61; x66; xe9] (Some ["ascii"])
                  (or_introl eq_refl) eq_refl)).
Defined.

(** X13: the shape of the return value tells whether the primary encoding
    worked. When the download succeeds, the bare text is returned exactly
    when the data is classified text and the primary codec decodes it, after
    that one codec call; a pair [(text, enc)] is returned only when the
    primary codec raised a decoding error, and then [enc] differs from the
    primary encoding and [text] is what the codec [enc] decodes the data
    to. *)
Theorem download_blob_to_text_shape
  {sdk_error credential client : Type} getenv (azure : Client.sdk sdk_error credential client)
  codec suffix_lower container blob encoding fbs data run
  (Hdata : Client.download_blob_to_bytes getenv azure container blob = inr data)
  (Hrun : download_blob_to_text getenv azure codec suffix_lower container blob encoding fbs
          = inr run) :
  (forall text,
      result run = inr (Text text) <->
      guess_content_type data default_sample_size = "text" /\
      codec encoding data = Decoded text)
  /\
  (forall text, result run = inr (Text text) -> attempts run = [encoding])
  /\
  (forall text enc,
      result run = inr (TextAndEncoding text enc) ->
      enc <> encoding /\ codec encoding data = Undecodable /\
      codec enc data = Decoded text).
Proof.
  destruct (download_blob_to_text_run getenv azure codec suffix_lower
              container blob encoding fbs data Hdata) as (fbs' & _ & Heq).
  rewrite Heq in Hrun. injection Hrun as <-. cbn [result attempts].
  destruct (result (safe_decode codec data encoding fbs')) as [e | [t enc]] eqn:Hres.
  - split; [|split]; try discriminate.
    intros text. split; [discriminate|]. intros [Ht Hdec].
    rewrite (safe_decode_on_text codec _ _ _ Ht), Hdec in Hres. discriminate.
  - destruct (safe_decode_pair_primary codec _ _ _ _ _ Hres)
      as (Ht & Hdec & [[-> Hlog] | (Hne & Hund & _)]).
    + unfold text_result_of. cbn [fst snd]. rewrite String.eqb_refl. cbn [negb].
      split; [|split]; try discriminate.
      * intros text. split.
        -- intros [= <-]. auto.
        -- intros [_ Hdec']. congruence.
      * intros _ _. exact Hlog.
    + unfold text_result_of. cbn [fst snd].
      apply String.eqb_neq in Hne. rewrite Hne. cbn [negb].
      apply String.eqb_neq in Hne.
      split; [|split]; try discriminate.
      * intros text. split; [discriminate|]. intros [_ Hdec']. congruence.
      * intros text enc' [= <- <-]. auto.
Qed.

Lemma download_blob_to_text_shape_witness :
  Codecs.registry "utf-8" [x63; x61; x66; xe9] = Undecodable /\
  Codecs.registry "latin1" [x63; x61; x66; xe9] = Decoded [99; 97; 102; 233].
Proof.
  pose proof (download_blob_to_text_shape
                (Reference.environment (Some "https://account") None)
                (Reference.serving [x63; x61; x66; xe9]) Codecs.registry
                Reference.suffix_lower "container" "notes.txt" "utf-8" None
                [x63; x61; x66; xe9] _ eq_refl eq_refl) as H.
  exact (proj2 (proj2 (proj2 H) [99; 97; 102; 233] "latin1" eq_refl)).
Defined.

(** X14: for a [.csv] or [.tsv] blob read with primary [utf-8], when the
    [latin1] codec decodes the data, the [cp1252], [utf-16] and [ascii]
    entries of the override list are never tried: the codec calls are none
    (binary content), [utf-8] alone, or [utf-8] then [latin1]; a returned
    pair names [latin1], and the exhausted [UnicodeError] is never
    raised. *)
Theorem download_blob_to_text_csv_stops_at_latin1
  {sdk_error credential client : Type} getenv (azure : Client.sdk sdk_error credential client)
  codec suffix_lower container blob fbs data run latin1_text
  (Hcsv : suffix_lower blob = ".csv" \/ suffix_lower blob = ".tsv")
  (Hdata : Client.download_blob_to_bytes getenv azure container blob = inr data)
  (Hlatin1 : codec "latin1" data = Decoded latin1_text)
  (Hrun : download_blob_to_text getenv azure codec suffix_lower container blob "utf-8" fbs
          = inr run) :
  (attempts run = [] \/ attempts run = ["utf-8"] \/ attempts run = ["utf-8"; "latin1"])
  /\
  (forall text enc,
      result run = inr (TextAndEncoding text enc) -> enc = "latin1" /\ text = latin1_text)
  /\
  (forall tried first_bytes, result run <> inl (UnicodeError tried first_bytes)).
Proof.
  destruct (download_blob_to_text_run getenv azure codec suffix_lower
              container blob "utf-8" fbs data Hdata) as (fbs' & Hfbs & Heq).
  rewrite Heq in Hrun. injection Hrun as <-. cbn [result attempts].
  replace (existsb (String.eqb (suffix_lower blob)) [".csv"; ".tsv"]) with true in Hfbs
    by (destruct Hcsv as [-> | ->]; reflexivity).
  cbn in Hfbs. subst fbs'.
  destruct (guess_content_type_cases data default_sample_size) as [Hb | Ht].
  - rewrite (safe_decode_on_binary codec _ _ _ Hb). cbn [attempts result].
    split; [now left|]. split; discriminate.
  - rewrite (safe_decode_total_first_fallback codec data "utf-8" (Some csv_fallbacks)
               "latin1" ["cp1252"; "utf-16"; "ascii"] latin1_text Ht eq_refl Hlatin1).
    destruct (codec "utf-8" data); cbn [attempts result]; unfold text_result_of;
      cbn [fst snd String.eqb Ascii.eqb Bool.eqb negb andb];
      (split; [|split]); try discriminate;
      try (right; now left); try (right; now right).
    intros text enc [= <- <-]. split; reflexivity.
Qed.

Lemma download_blob_to_text_csv_stops_at_latin1_witness :
  attempts (safe_decode Codecs.registry [x63; x61; x66; xe9] "utf-8" (Some csv_fallbacks))
  = ["utf-8"; "latin1"].
Proof.
  pose proof (download_blob_to_text_csv_stops_at_latin1
                (Reference.environment None (Some "UseDevelopmentStorage=true"))
                (Reference.serving [x63; x61; x66; xe9]) Codecs.registry
                Reference.suffix_lower "container" "data.tsv" (Some ["utf-16"])
                [x63; x61; x66; xe9] _ [99; 97; 102; 233]
                (or_intror eq_refl) eq_refl eq_refl eq_refl) as H.
  destruct (proj1 H) as [H0 | [H1 | H2]]; [discriminate H0 | discriminate H1 | exact H2].
Defined.

(** * Properties of _create_blob_service_client *)

Lemma prefix_spec needle hay :
  String.prefix needle hay = true <-> exists post, hay = (needle ++ post)%string.
Proof.
  revert hay. induction needle as [|c needle IH]; intros hay.
  - destruct hay; cbn; split; eauto.
  - destruct hay as [|h hay]; cbn [String.prefix String.append].
    + split; [discriminate | intros [post H]; discriminate].
    + destruct (Ascii.ascii_dec c h) as [-> | Hne].
      * rewrite IH. split; intros [post H]; exists post; congruence.
      * split; [discriminate | intros [post H]; congruence].
Qed.

(** [contains] is the substring test. *)
Lemma contains_spec needle hay :
  Client.contains needle hay = true <->
  exists pre post, hay = (pre ++ needle ++ post)%string.
Proof.
  induction hay as [|h hay IH]; cbn [Client.contains].
  - rewrite orb_false_r, prefix_spec. split.
    + intros [post H]. exists EmptyString, post. exact H.
    + intros (pre & post & H). destruct pre; [eauto | discriminate].
  - rewrite orb_true_iff, prefix_spec, IH. split.
    + intros [[post H] | (pre & post & H)].
      * exists EmptyString, post. exact H.
      * exists (String h pre), post. cbn. congruence.
    + intros (pre & post & H). destruct pre as [|p pre].
      * left. exists post. exact H.
      * right. exists pre, post. cbn in H. congruence.
Qed.

(** X15: the account URL takes precedence and there is no fallback from it.
    When [AZURE_STORAGE_ACCOUNT_URL] is set and not empty, the result does
    not depend on [AZURE_STORAGE_CONNECTION_STRING] nor on what
    [from_connection_string] would do; and a failure on that path is the
    [RuntimeError] wrapping the original message (or the [ImportError] of a
    missing SDK), never a retry with the connection string. *)
Theorem create_client_prefers_account_url
  {sdk_error credential client : Type} getenv
  (azure : Client.sdk sdk_error credential client) first rest
  (Hurl : getenv "AZURE_STORAGE_ACCOUNT_URL" = Some (String first rest)) :
  (forall getenv' from_connection_string' readall',
      getenv' "AZURE_STORAGE_ACCOUNT_URL" = getenv "AZURE_STORAGE_ACCOUNT_URL" ->
      Client._create_blob_service_client getenv'
        (Client.Sdk _ _ _ (Client.installed azure) (Client.str azure)
           (Client.DefaultAzureCredential azure) (Client.BlobServiceClient azure)
           from_connection_string' readall')
      = Client._create_blob_service_client getenv azure)
  /\
  (forall e,
      Client._create_blob_service_client getenv azure = inl e ->
      e = Client.ImportError Client.import_error_msg \/
      exists original, e = Client.RuntimeError (Client.aad_error_msg (Client.str azure original))).
Proof.
  split.
  - intros getenv' f' r' Hsame. unfold Client._create_blob_service_client.
    cbn [Client.installed Client.DefaultAzureCredential Client.BlobServiceClient Client.str].
    rewrite Hsame, Hurl. reflexivity.
  - intros e. unfold Client._create_blob_service_client. rewrite Hurl.
    destruct (Client.installed azure); cbn [negb].
    + destruct (Client.DefaultAzureCredential azure) as [e0 | cred].
      * intros [= <-]. right. eauto.
      * destruct (Client.BlobServiceClient azure _ cred) as [e0 | service].
        -- intros [= <-]. right. eauto.
        -- discriminate.
    + intros [= <-]. now left.
Qed.

Lemma create_client_prefers_account_url_witness :
  Client._create_blob_service_client
    (Reference.environment (Some "https://account") (Some "AccountKey=secret"))
    (Reference.serving [x41])
  = Client._create_blob_service_client
      (Reference.environment (Some "https://account") None)
      (Client.Sdk string unit unit true (fun e => e) (inr tt) (fun _ _ => inr tt)
         (fun _ => inl "KeyBasedAuthenticationNotPermitted") (fun _ _ _ => inr [x41])).
Proof.
  symmetry.
  apply (proj1 (create_client_prefers_account_url
                  (Reference.environment (Some "https://account") (Some "AccountKey=secret"))
                  (Reference.serving [x41]) _ _ eq_refl)).
  reflexivity.
Defined.

(** X16: what the two configuration errors mean. The [ImportError] is
    raised exactly when the SDK is missing, before the environment is read.
    The [ValueError] is raised exactly when the SDK is installed and both
    [AZURE_STORAGE_ACCOUNT_URL] and [AZURE_STORAGE_CONNECTION_STRING] are
    unset or empty: an empty value counts as unset. *)
Theorem create_client_configuration_errors
  {sdk_error credential client : Type} getenv
  (azure : Client.sdk sdk_error credential client) :
  (forall msg,
      Client._create_blob_service_client getenv azure = inl (Client.ImportError msg) <->
      Client.installed azure = false /\ msg = Client.import_error_msg)
  /\
  (forall msg,
      Client._create_blob_service_client getenv azure = inl (Client.ValueError msg) <->
      Client.installed azure = true /\
      Client.truthy (getenv "AZURE_STORAGE_ACCOUNT_URL") = false /\
      Client.truthy (getenv "AZURE_STORAGE_CONNECTION_STRING") = false /\
      msg = Client.no_configuration_msg).
Proof.
  unfold Client._create_blob_service_client.
  destruct (Client.installed azure); cbn [negb].
  - destruct (getenv "AZURE_STORAGE_ACCOUNT_URL") as [[|u url]|];
      cbn [Client.truthy];
      try (destruct (getenv "AZURE_STORAGE_CONNECTION_STRING") as [[|c conn]|];
           cbn [Client.truthy]);
      repeat match goal with
        | |- context [Client.DefaultAzureCredential azure] =>
            destruct (Client.DefaultAzureCredential azure)
        | |- context [Client.BlobServiceClient azure ?u ?c] =>
            destruct (Client.BlobServiceClient azure u c)
        | |- context [Client.from_connection_string azure ?s] =>
            destruct (Client.from_connection_string azure s)
        | |- context [if ?b then _ else _] => destruct b
        end;
      (split; intros msg;
       (split;
        [ intros H; try discriminate H;
          try (injection H as <-; repeat split; reflexivity)
        | intros H; decompose [and] H; clear H; subst;
          try discriminate; try reflexivity ])).
  - split; intros msg; split.
    + intros [= <-]. auto.
    + intros [_ ->]. reflexivity.
    + discriminate.
    + intros [H _]. discriminate.
Qed.

(** X17: a failure of [from_connection_string] is translated only when it
    is about key-based authentication. With no usable account URL and a
    non-empty connection string, if the message of the SDK's exception
    contains [KeyBasedAuthenticationNotPermitted] or
    [Key based authentication is not permitted] anywhere, the
    [RuntimeError] with the Azure AD guidance is raised; otherwise the SDK's
    exception passes through unchanged. *)
Theorem create_client_connection_string_failure
  {sdk_error credential client : Type} getenv
  (azure : Client.sdk sdk_error credential client) first rest e
  (Hinstalled : Client.installed azure = true)
  (Hurl : Client.truthy (getenv "AZURE_STORAGE_ACCOUNT_URL") = false)
  (Hconn : getenv "AZURE_STORAGE_CONNECTION_STRING" = Some (String first rest))
  (Hfail : Client.from_connection_string azure (String first rest) = inl e) :
  ((exists pre post,
       Client.str azure e = (pre ++ "KeyBasedAuthenticationNotPermitted" ++ post)%string \/
       Client.str azure e = (pre ++ "Key based authentication is not permitted" ++ post)%string)
   -> Client._create_blob_service_client getenv azure
      = inl (Client.RuntimeError Client.key_auth_error_msg))
  /\
  (~ (exists pre post,
       Client.str azure e = (pre ++ "KeyBasedAuthenticationNotPermitted" ++ post)%string \/
       Client.str azure e = (pre ++ "Key based authentication is not permitted" ++ post)%string)
   -> Client._create_blob_service_client getenv azure = inl (Client.Raised e)).
Proof.
  assert (Hrun : Client._create_blob_service_client getenv azure =
                 if Client.contains "KeyBasedAuthenticationNotPermitted" (Client.str azure e)
                    || Client.contains "Key based authentication is not permitted"
                         (Client.str azure e)
                 then inl (Client.RuntimeError Client.key_auth_error_msg)
                 else inl (Client.Raised e)).
  { unfold Client._create_blob_service_client. rewrite Hinstalled. cbn [negb].
    destruct (getenv "AZURE_STORAGE_ACCOUNT_URL") as [[|u url]|];
      cbn [Client.truthy] in Hurl; try discriminate;
      rewrite Hconn, Hfail; reflexivity. }
  rewrite Hrun. split.
  - intros (pre & post & [H | H]).
    + replace (Client.contains "KeyBasedAuthenticationNotPermitted" (Client.str azure e))
        with true by (symmetry; apply contains_spec; eauto).
      reflexivity.
    + replace (Client.contains "Key based authentication is not permitted"
                 (Client.str azure e))
        with true by (symmetry; apply contains_spec; eauto).
      rewrite orb_true_r. reflexivity.
  - intros Hnone.
    destruct (Client.contains "KeyBasedAuthenticationNotPermitted" (Client.str azure e)) eqn:E1.
    + exfalso. apply Hnone. apply contains_spec in E1.
      destruct E1 as (pre & post & H). exists pre, post. now left.
    + destruct (Client.contains "Key based authentication is not permitted"
                  (Client.str azure e)) eqn:E2; [|reflexivity].
      exfalso. apply Hnone. apply contains_spec in E2.
      destruct E2 as (pre & post & H). exists pre, post. now right.
Qed.

Lemma create_client_connection_string_failure_witness :
  Client._create_blob_service_client
    (Reference.environment (Some "") (Some "AccountName=a;AccountKey=k"))
    (Client.Sdk string unit unit true (fun e => e) (inr tt) (fun _ _ => inr tt)
       (fun _ => inl "(403) KeyBasedAuthenticationNotPermitted: denied")
       (fun _ _ _ => inr []))
  = inl (Client.RuntimeError Client.key_auth_error_msg).
Proof.
  apply (proj1 (create_client_connection_string_failure
                  (Reference.environment (Some "") (Some "AccountName=a;AccountKey=k"))
                  (Client.Sdk string unit unit true (fun e => e) (inr tt) (fun _ _ => inr tt)
                     (fun _ => inl "(403) KeyBasedAuthenticationNotPermitted: denied")
                     (fun _ _ _ => inr []))
                  _ _ "(403) KeyBasedAuthenticationNotPermitted: denied"
                  eq_refl eq_refl eq_refl eq_refl)).
  exists "(403) ", ": denied". left. reflexivity.
Defined.

(** * Properties of format_size *)

(** ** Binary64: exact scaling by powers of two *)

Lemma div_eucl_div_mod a b : Z.div_eucl a b = (a / b, a mod b).
Proof. unfold Z.div, Z.modulo. destruct (Z.div_eucl a b). reflexivity. Qed.

(** Dividing a double with a full mantissa by 1024.0 lowers its exponent
    by ten and leaves the mantissa. *)
Lemma div_1024_exact m e :
  Zdigits2 (Zpos m) = 53 -> -1000 <= e <= 900 ->
  SFdiv 53 1024 (S754_finite false m e) (F64.of_int 1024) = S754_finite false m (e - 10).
Proof.
  intros Hd He.
  change (F64.of_int 1024) with (S754_finite false 4503599627370496 (-42)).
  unfold SFdiv, SFdiv_core_binary. cbn [xorb].
  rewrite Hd. change (Zdigits2 4503599627370496) with 53.
  unfold fexp, emin.
  replace (Z.min (Z.max (53 + e - (53 + -42) - 53) (3 - 1024 - 53)) (e - -42))
    with (e - 11) by lia.
  replace (e - -42 - (e - 11)) with 53 by lia.
  rewrite Z.shiftl_mul_pow2 by lia.
  rewrite div_eucl_div_mod.
  replace (Zpos m * 2 ^ 53) with (2 * Zpos m * 4503599627370496) by lia.
  rewrite Z.div_mul, Z.mod_mul by lia.
  change (new_location 4503599627370496 0) with loc_Exact.
  assert (Hd2 : Zdigits2 (2 * Zpos m) = 54).
  { pose proof (Zdigits2_bounds m) as B. rewrite Hd in B.
    apply Zdigits2_unique; [lia|]. change (2 ^ (54 - 1)) with (2 * 2 ^ (53 - 1)).
    change (2 ^ 54) with (2 * 2 ^ 53). lia. }
  unfold binary_round_aux.
  rewrite (shr_fexp_shift _ _ _ _ Hd2) by lia.
  change (Z.to_pos (54 - 53)) with 1%positive. cbn [iter_pos shr_record_of_loc].
  rewrite shr_1_nonneg by lia.
  replace (2 * Zpos m / 2) with (Zpos m) by (rewrite Z.mul_comm, Z.div_mul; lia).
  replace (Z.odd (2 * Zpos m)) with false
    by (rewrite Z.odd_mul; reflexivity).
  cbn [orb shr_m loc_of_shr_record round_nearest_even].
  rewrite (shr_fexp_keep _ _ _ Hd) by lia.
  cbn [shr_record_of_loc shr_m].
  replace (e - 11 + (54 - 53)) with (e - 10) by lia.
  destruct (Z.leb_spec (e - 10) (1024 - 53)); [reflexivity | lia].
Qed.

(** An integer below 2^53 scaled by a power of two is exact: the mantissa
    is the integer shifted to 53 bits, whatever the scale. *)
Lemma scaled_exact n :
  0 < n < 2 ^ 53 ->
  exists mx a,
    0 <= a < 53 /\ Zpos mx = n * 2 ^ a /\ Zdigits2 (Zpos mx) = 53 /\
    forall e, -1000 <= e <= 900 ->
      binary_normalize 53 1024 n e false = S754_finite false mx (e - a).
Proof.
  intros [Hpos Hlt]. destruct n as [|p|p]; try lia.
  pose proof (Zdigits2_bounds p) as [Blo Bhi]. cbn [Zdigits2] in Blo, Bhi.
  set (d := Zpos (digits2_pos p)) in *.
  assert (Hd : 0 < d <= 53).
  { split; [subst d; lia|].
    destruct (Z_le_gt_dec d 53) as [|Hgt]; [assumption | exfalso].
    assert (2 ^ 53 <= 2 ^ (d - 1)) by (apply Z.pow_le_mono_r; lia). lia. }
  assert (HA : 0 < 2 ^ (53 - d)) by (apply Z.pow_pos_nonneg; lia).
  assert (Hpow : 2 ^ (d - 1) * 2 ^ (53 - d) = 2 ^ 52).
  { rewrite <- Z.pow_add_r by lia. f_equal. lia. }
  assert (Hpow' : 2 ^ d * 2 ^ (53 - d) = 2 ^ 53).
  { rewrite <- Z.pow_add_r by lia. f_equal. lia. }
  assert (Hrange : 2 ^ 52 <= Zpos p * 2 ^ (53 - d) < 2 ^ 53) by nia.
  exists (Z.to_pos (Zpos p * 2 ^ (53 - d))), (53 - d).
  assert (Hmx : Zpos (Z.to_pos (Zpos p * 2 ^ (53 - d))) = Zpos p * 2 ^ (53 - d))
    by (apply Z2Pos.id; lia).
  assert (Hdig : Zdigits2 (Zpos (Z.to_pos (Zpos p * 2 ^ (53 - d)))) = 53)
    by (apply Zdigits2_unique; lia).
  split; [lia|]. split; [exact Hmx|]. split; [exact Hdig|].
  intros e He.
  unfold binary_normalize, binary_round. fold d.
  unfold fexp, emin.
  replace (Z.max (d + e - 53) (3 - 1024 - 53)) with (d + e - 53) by lia.
  unfold shl_align.
  destruct (d + e - 53 - e) as [|k|k] eqn:Ek; try lia.
  - assert (d = 53) as Hd53 by lia.
    assert (Hp : Z.to_pos (Zpos p * 2 ^ (53 - d)) = p).
    { rewrite Hd53. change (2 ^ (53 - 53)) with 1. rewrite Z.mul_1_r. reflexivity. }
    rewrite Hp in *.
    rewrite binary_round_aux_keep by lia.
    f_equal. lia.
  - change (PosDef.Pos.iter xO p k) with (Pos.iter xO p k).
    assert (Hk : Zpos k = 53 - d) by lia.
    assert (Hiter : Pos.iter xO p k = Z.to_pos (Zpos p * 2 ^ (53 - d))).
    { apply Pos2Z.inj. rewrite Hmx, pos_iter_xO, Hk. reflexivity. }
    rewrite Hiter.
    rewrite binary_round_aux_keep by lia.
    f_equal. lia.
Qed.

Lemma float_lt_int_scaled mx a n s c :
  Zpos mx = n * 2 ^ a -> 0 <= a -> 0 <= s ->
  Size.float_lt_int (S754_finite false mx (- s - a)) c = (n <? c * 2 ^ s).
Proof.
  intros Hmx Ha Hs. unfold Size.float_lt_int. cbn [cond_Zopp].
  assert (HA : 0 < 2 ^ a) by (apply Z.pow_pos_nonneg; lia).
  destruct (Z.leb_spec 0 (- s - a)) as [Hz | Hneg].
  - assert (s = 0) by lia. assert (a = 0) by lia. subst s a.
    cbn [Z.opp Z.sub Z.add]. change (2 ^ 0) with 1 in *. rewrite Hmx.
    destruct (Z.ltb_spec (n * 1 * 1) c), (Z.ltb_spec n (c * 1)); try reflexivity; lia.
  - replace (- (- s - a)) with (s + a) by lia. rewrite Z.pow_add_r by lia.
    rewrite Hmx.
    destruct (Z.ltb_spec (n * 2 ^ a) (c * (2 ^ s * 2 ^ a))), (Z.ltb_spec n (c * 2 ^ s));
      try reflexivity; exfalso; nia.
Qed.

(** ** The unit and the number printed *)

Section FormatSizeFacts.

Variable format_1f : spec_float -> string.

(** What [format_size] prints for a size below 2^53: the unit reached by
    the loop, and the size divided as many times as the loop went round. *)
Lemma format_size_run n :
  0 <= n < 2 ^ 53 ->
  Size.format_size format_1f n =
  inr (if n <? 1024 then (format_1f (Size.scaled n 0) ++ " B")%string
       else if n <? 1024 ^ 2 then (format_1f (Size.scaled n 1) ++ " KB")%string
       else if n <? 1024 ^ 3 then (format_1f (Size.scaled n 2) ++ " MB")%string
       else if n <? 1024 ^ 4 then (format_1f (Size.scaled n 3) ++ " GB")%string
       else (format_1f (Size.scaled n 4) ++ " GB")%string).
Proof.
  intros [Hn0 Hn].
  destruct (Z.eq_dec n 0) as [-> | Hnz]; [reflexivity|].
  destruct (scaled_exact n ltac:(lia)) as (mx & a & Ha & Hmx & Hdig & Hs).
  assert (Hk : forall k, 0 <= k <= 4 ->
             Size.scaled n k = S754_finite false mx (- (10 * k) - a)).
  { intros k Hk. unfold Size.scaled, F64.prec, F64.emax. apply Hs. lia. }
  assert (H0 : F64.of_int n = S754_finite false mx (- (10 * 0) - a)).
  { rewrite <- (Hk 0) by lia. reflexivity. }
  assert (Hdiv : forall k, 0 <= k < 4 ->
             SFdiv F64.prec F64.emax (Size.scaled n k) (F64.of_int 1024)
             = Size.scaled n (k + 1)).
  { intros k Hk'. rewrite !Hk by lia. unfold F64.prec, F64.emax.
    rewrite div_1024_exact by (assumption || lia). f_equal. lia. }
  assert (Hlt : forall k, 0 <= k <= 4 ->
             Size.float_lt_int (Size.scaled n k) 1024 = (n <? 1024 * 2 ^ (10 * k))).
  { intros k Hk'. rewrite Hk by lia.
    apply float_lt_int_scaled; [exact Hmx | lia | lia]. }
  unfold Size.format_size.
  cbn [Size.loop Size.lt_1024].
  destruct (Z.ltb_spec n 1024) as [H1 | H1].
  { unfold Size.show, Size.to_float. rewrite H0. cbn [Size.is_finite].
    rewrite (Hk 0) by lia. reflexivity. }
  cbn [Size.div_1024]. rewrite (Hk 1) at 1 by lia. cbn [Size.is_finite].
  cbn [Size.lt_1024]. rewrite (Hlt 1) by lia.
  change (1024 * 2 ^ (10 * 1)) with (1024 ^ 2).
  destruct (Z.ltb_spec n (1024 ^ 2)) as [H2 | H2]; [reflexivity|].
  cbn [Size.div_1024]. rewrite (Hdiv 1) by lia. change (1 + 1) with 2.
  cbn [Size.lt_1024]. rewrite (Hlt 2) by lia.
  change (1024 * 2 ^ (10 * 2)) with (1024 ^ 3).
  destruct (Z.ltb_spec n (1024 ^ 3)) as [H3 | H3]; [reflexivity|].
  cbn [Size.div_1024]. rewrite (Hdiv 2) by lia. change (2 + 1) with 3.
  cbn [Size.lt_1024]. rewrite (Hlt 3) by lia.
  change (1024 * 2 ^ (10 * 3)) with (1024 ^ 4).
  destruct (Z.ltb_spec n (1024 ^ 4)) as [H4 | H4]; [reflexivity|].
  cbn [Size.div_1024]. rewrite (Hdiv 3) by lia. reflexivity.
Qed.


(** The double [scaled n k] is the quotient [n / 1024 ^ k] itself. *)
Lemma scaled_value n k :
  0 < n < 2 ^ 53 -> 0 <= k <= 4 ->
  exists m e,
    Size.scaled n k = S754_finite false m e /\ e <= 0 /\
    Zpos m * 1024 ^ k = n * 2 ^ (- e).
Proof.
  intros Hn Hk.
  destruct (scaled_exact n Hn) as (mx & a & Ha & Hmx & _ & Hs).
  exists mx, (- (10 * k) - a). split; [|split].
  - unfold Size.scaled, F64.prec, F64.emax. apply Hs. lia.
  - lia.
  - replace (- (- (10 * k) - a)) with (a + 10 * k) by lia.
    rewrite Z.pow_add_r, Z.pow_mul_r by lia. change (2 ^ 10) with 1024.
    rewrite Hmx. ring.
Qed.

(** Multiplying the size by 1024 and dividing once more gives the same
    double. *)
Lemma scaled_shift n k :
  0 < n -> 1024 * n < 2 ^ 53 -> 0 <= k < 4 ->
  Size.scaled (1024 * n) (k + 1) = Size.scaled n k.
Proof.
  intros Hn Hbig Hk.
  destruct (scaled_exact n ltac:(lia)) as (mx & a & Ha & Hmx & Hdig & Hs).
  destruct (scaled_exact (1024 * n) ltac:(lia)) as (mx' & a' & Ha' & Hmx' & Hdig' & Hs').
  pose proof (Zdigits2_bounds mx) as B. rewrite Hdig in B.
  pose proof (Zdigits2_bounds mx') as B'. rewrite Hdig' in B'.
  assert (Hsame : a = a' + 10).
  { assert (Hp : Zpos mx' = n * 2 ^ (a' + 10)).
    { rewrite Z.pow_add_r by lia. change (2 ^ 10) with 1024. lia. }
    destruct (Z.lt_trichotomy a (a' + 10)) as [Hlt | [Heq | Hgt]]; [exfalso | exact Heq | exfalso].
    - assert (2 * 2 ^ a <= 2 ^ (a' + 10)).
      { rewrite <- Z.pow_succ_r by lia. apply Z.pow_le_mono_r; lia. }
      change (2 ^ (53 - 1)) with (2 ^ 52) in *. nia.
    - assert (2 * 2 ^ (a' + 10) <= 2 ^ a).
      { rewrite <- Z.pow_succ_r by lia. apply Z.pow_le_mono_r; lia. }
      change (2 ^ (53 - 1)) with (2 ^ 52) in *. nia. }
  assert (Hm : mx' = mx).
  { apply Pos2Z.inj. rewrite Hmx, Hmx', Hsame, Z.pow_add_r by lia.
    change (2 ^ 10) with 1024. ring. }
  unfold Size.scaled, F64.prec, F64.emax.
  rewrite Hs, Hs' by lia. rewrite Hm. f_equal. lia.
Qed.

End FormatSizeFacts.

(** X18: below 1 TiB, [format_size] picks the unit by magnitude and prints
    the exact quotient: for a size in [1024^k, 1024^(k+1)) (from 0 for
    k = 0) it formats the double equal to [size / 1024^k], followed by B,
    KB, MB or GB for k = 0, 1, 2, 3; the division loses nothing. *)
Theorem format_size_units format_1f n
  (Hn : 0 <= n < 1024 ^ 4) :
  (n < 1024 ->
   Size.format_size format_1f n = inr (format_1f (Size.scaled n 0) ++ " B")%string)
  /\
  (1024 <= n < 1024 ^ 2 ->
   Size.format_size format_1f n = inr (format_1f (Size.scaled n 1) ++ " KB")%string)
  /\
  (1024 ^ 2 <= n < 1024 ^ 3 ->
   Size.format_size format_1f n = inr (format_1f (Size.scaled n 2) ++ " MB")%string)
  /\
  (1024 ^ 3 <= n ->
   Size.format_size format_1f n = inr (format_1f (Size.scaled n 3) ++ " GB")%string)
  /\
  (forall k, 0 < n -> 0 <= k <= 3 ->
     exists m e,
       Size.scaled n k = S754_finite false m e /\ e <= 0 /\
       Zpos m * 1024 ^ k = n * 2 ^ (- e)).
Proof.
  assert (Hrun := format_size_run format_1f n ltac:(lia)).
  repeat split.
  - intros H. rewrite Hrun.
    destruct (Z.ltb_spec n 1024); [reflexivity | lia].
  - intros H. rewrite Hrun.
    destruct (Z.ltb_spec n 1024); [lia|].
    destruct (Z.ltb_spec n (1024 ^ 2)); [reflexivity | lia].
  - intros H. rewrite Hrun.
    destruct (Z.ltb_spec n 1024); [lia|].
    destruct (Z.ltb_spec n (1024 ^ 2)); [lia|].
    destruct (Z.ltb_spec n (1024 ^ 3)); [reflexivity | lia].
  - intros H. rewrite Hrun.
    destruct (Z.ltb_spec n 1024); [lia|].
    destruct (Z.ltb_spec n (1024 ^ 2)); [lia|].
    destruct (Z.ltb_spec n (1024 ^ 3)); [lia|].
    destruct (Z.ltb_spec n (1024 ^ 4)); [reflexivity | lia].
  - intros k Hpos Hk. apply scaled_value; lia.
Qed.

Lemma format_size_units_witness :
  Size.format_size Size.fixed_1 1536 = inr "1.5 KB".
Proof.
  apply (proj1 (proj2 (format_size_units Size.fixed_1 1536 ltac:(lia)))). lia.
Defined.

(** X19: from 1 TiB on (and below 2^53 bytes), [format_size] has run out
    of units: it divides a fourth time and still prints GB, so the number
    shown is [size / 1024^4] exactly, and a size of 1 TiB or more prints as
    the size 1024 times smaller does. *)
Theorem format_size_beyond_gb format_1f n
  (Hn : 1024 ^ 4 <= n < 2 ^ 53) :
  Size.format_size format_1f n = inr (format_1f (Size.scaled n 4) ++ " GB")%string
  /\
  (exists m e,
      Size.scaled n 4 = S754_finite false m e /\ e <= 0 /\
      Zpos m * 1024 ^ 4 = n * 2 ^ (- e))
  /\
  (forall n', n = 1024 * n' -> n' < 1024 ^ 4 ->
      Size.format_size format_1f n = Size.format_size format_1f n').
Proof.
  assert (Hrun := format_size_run format_1f n ltac:(lia)).
  assert (Hgb : Size.format_size format_1f n
                = inr (format_1f (Size.scaled n 4) ++ " GB")%string).
  { rewrite Hrun.
    destruct (Z.ltb_spec n 1024); [lia|].
    destruct (Z.ltb_spec n (1024 ^ 2)); [lia|].
    destruct (Z.ltb_spec n (1024 ^ 3)); [lia|].
    destruct (Z.ltb_spec n (1024 ^ 4)); [lia | reflexivity]. }
  split; [exact Hgb|]. split; [apply scaled_value; lia|].
  intros n' -> Hsmall. rewrite Hgb.
  rewrite (format_size_run format_1f n') by lia.
  destruct (Z.ltb_spec n' 1024); [lia|].
  destruct (Z.ltb_spec n' (1024 ^ 2)); [lia|].
  destruct (Z.ltb_spec n' (1024 ^ 3)); [lia|].
  destruct (Z.ltb_spec n' (1024 ^ 4)); [|lia].
  change 4 with (3 + 1) at 1. rewrite scaled_shift by lia. reflexivity.
Qed.

Lemma format_size_beyond_gb_witness :
  Size.format_size Size.fixed_1 (1024 ^ 4) = inr "1.0 GB" /\
  Size.format_size Size.fixed_1 (1024 ^ 3) = inr "1.0 GB".
Proof.
  pose proof (format_size_beyond_gb Size.fixed_1 (1024 ^ 4) ltac:(lia)) as H.
  split; [exact (proj1 H)|].
  rewrite <- (proj2 (proj2 H) (1024 ^ 3) eq_refl ltac:(lia)). exact (proj1 H).
Defined.
